(** * cs2_window_tracker: window queries and the WinEvent subscription core

    A shallow embedding of [electron/native-addon/src/cs2_window_tracker.cpp].

    The addon keeps one global [HookState] behind the pointer [g_hookState],
    registers up to four WinEvent hooks with the operating system, and
    forwards the notifications it receives to one JavaScript callback.  Next
    to that it offers a few window queries.

    The embedding threads a [World] (the global pointer together with the
    parts of the operating system the addon changes) through every operation
    and records the calls that leave the addon in a trace.  What the operating
    system answers to a call is an input of the model. *)

From Stdlib Require Import ZArith List String Ascii Bool Lia QArith DecimalString
  Permutation.
Import ListNotations.
Open Scope Z_scope.

(** ** Machine integers and handles *)

(** [DWORD] is an unsigned 32-bit integer, [LONG] and [int] are signed 32-bit
    integers.  Handles ([HWND], [HWINEVENTHOOK], [HDC], [HMODULE]) are pointer
    sized; a handle is modelled by its bits read as a signed 64-bit integer,
    which is also how it crosses the JavaScript boundary.  [NULL] is 0. *)
Definition DWORD := Z.
Definition LONG := Z.
Definition HWND := Z.
Definition HWINEVENTHOOK := Z.
Definition HDC := Z.
Definition HMODULE := Z.

Definition NULL : Z := 0.

(** The truth value of a handle in a C++ condition: [if (h)]. *)
Definition nonnull (h : Z) : bool := negb (h =? NULL).

(** Wrap-around into the unsigned 32-bit and the signed 32- and 64-bit ranges. *)
Definition wrap_u32 (z : Z) : Z := z mod 2 ^ 32.
Definition wrap_i32 (z : Z) : Z := (z + 2 ^ 31) mod 2 ^ 32 - 2 ^ 31.
Definition wrap_i64 (z : Z) : Z := (z + 2 ^ 63) mod 2 ^ 64 - 2 ^ 63.

(** ** Win32 constants *)

(** The [#define]s at the head of the source file. *)
Definition EVENT_OBJECT_LOCATIONCHANGE : DWORD := 0x800B.
Definition EVENT_SYSTEM_MOVESIZESTART : DWORD := 0x000A.
Definition EVENT_SYSTEM_MOVESIZEEND : DWORD := 0x000B.
Definition EVENT_SYSTEM_MINIMIZESTART : DWORD := 0x0016.
Definition EVENT_SYSTEM_MINIMIZEEND : DWORD := 0x0017.
Definition EVENT_SYSTEM_FOREGROUND : DWORD := 0x0003.
Definition EVENT_OBJECT_DESTROY : DWORD := 0x8001.
Definition WINEVENT_OUTOFCONTEXT : DWORD := 0x0000.
Definition WINEVENT_SKIPOWNPROCESS : DWORD := 0x0002.

(** Constants the source takes from [winuser.h]; the values are those of the
    Windows SDK. *)
Definition OBJID_WINDOW : LONG := 0.
Definition CHILDID_SELF : LONG := 0.
Definition WS_EX_TOOLWINDOW : Z := 0x80.
Definition LOGPIXELSX : Z := 88.

(** ** JavaScript values at the addon boundary *)

(** A JavaScript function is known by its identity only. *)
Definition JsFunctionId := nat.

(** The argument and result values the addon inspects or builds.  A number
    carries its integral part: the only use the addon makes of an incoming
    number is [Uint32Value], which truncates and then wraps modulo 2^32.
    [JsDouble q] is the number the addon obtains from a floating point
    division: the double nearest to the rational [q]. *)
Inductive JsValue : Type :=
| JsUndefined
| JsNull
| JsBoolean (b : bool)
| JsNumber (n : Z)
| JsBigInt (z : Z)
| JsDouble (q : Q)
| JsString (s : string)
| JsFunction (f : JsFunctionId).

Definition Uint32Value (n : Z) : DWORD := wrap_u32 n.
Definition Int64Value (z : Z) : Z := wrap_i64 z.

(** An object built with [Napi::Object::New] and filled with [Set]; the
    fields are kept in the order they were set. *)
Definition JsObject := list (string * JsValue).

Definition obj_set (k : string) (v : JsValue) (o : JsObject) : JsObject :=
  o ++ [(k, v)].

Fixpoint obj_get (k : string) (o : JsObject) : option JsValue :=
  match o with
  | [] => None
  | (k', v) :: o' => if String.eqb k k' then Some v else obj_get k o'
  end.

Inductive JsError : Type :=
| TypeError (msg : string)
| Error (msg : string).

(** How a call from JavaScript ends: with a value, or with a pending
    JavaScript exception ([ThrowAsJavaScriptException]; the value returned
    next to it is dropped by the runtime). *)
Inductive Outcome : Type :=
| Return (v : JsValue)
| Throw (e : JsError).

(** [std::to_string] on an unsigned value. *)
Definition to_string (n : Z) : string :=
  NilZero.string_of_uint (N.to_uint (Z.to_N n)).

(** ** The global hook state *)

(** [struct HookState].  [jsCallback] is a [Napi::FunctionReference]: it is
    either empty or holds a function. *)
Record HookState : Type := mkHookState {
  targetPid : DWORD;
  jsCallback : option JsFunctionId;
  hookHandle1 : HWINEVENTHOOK;  (* location change and destroy *)
  hookHandle2 : HWINEVENTHOOK;  (* move/resize *)
  hookHandle3 : HWINEVENTHOOK;  (* minimize *)
  hookHandle4 : HWINEVENTHOOK   (* foreground *)
}.

Definition set_hookHandle1 (h : HWINEVENTHOOK) (s : HookState) : HookState :=
  mkHookState (targetPid s) (jsCallback s) h (hookHandle2 s) (hookHandle3 s) (hookHandle4 s).
Definition set_hookHandle2 (h : HWINEVENTHOOK) (s : HookState) : HookState :=
  mkHookState (targetPid s) (jsCallback s) (hookHandle1 s) h (hookHandle3 s) (hookHandle4 s).
Definition set_hookHandle3 (h : HWINEVENTHOOK) (s : HookState) : HookState :=
  mkHookState (targetPid s) (jsCallback s) (hookHandle1 s) (hookHandle2 s) h (hookHandle4 s).
Definition set_hookHandle4 (h : HWINEVENTHOOK) (s : HookState) : HookState :=
  mkHookState (targetPid s) (jsCallback s) (hookHandle1 s) (hookHandle2 s) (hookHandle3 s) h.
Definition set_jsCallback (c : option JsFunctionId) (s : HookState) : HookState :=
  mkHookState (targetPid s) c (hookHandle1 s) (hookHandle2 s) (hookHandle3 s) (hookHandle4 s).

(** The hook handles of a state that are not [NULL], in field order. *)
Definition live_handles (s : HookState) : list HWINEVENTHOOK :=
  filter nonnull [hookHandle1 s; hookHandle2 s; hookHandle3 s; hookHandle4 s].

(** ** The world and the trace *)

(** The addon's global pointer and the two tables of the operating system
    the addon writes to: the WinEvent hooks that are registered (one entry
    per successful [SetWinEventHook], removed by [UnhookWinEvent]) and the
    thread-input links made by [AttachThreadInput]. *)
Record World : Type := mkWorld {
  g_hookState : option HookState;
  win_event_hooks : list HWINEVENTHOOK;
  input_links : list (DWORD * DWORD)
}.

Definition initial_world : World := mkWorld None [] [].

(** The calls that leave the addon, as they appear in a trace. *)
Inductive Effect : Type :=
| CallSetWinEventHook (eventMin eventMax : DWORD) (flags : DWORD) (result : HWINEVENTHOOK)
| CallUnhookWinEvent (h : HWINEVENTHOOK)
| CallGetLastError (result : DWORD)
| CallPersistent (f : JsFunctionId)
| CallReset (held : option JsFunctionId)
| CallJs (f : JsFunctionId) (arg : JsObject)
| CallAttachThreadInput (idAttach idAttachTo : DWORD) (fAttach : bool) (result : bool)
| CallShowWindow (hwnd : HWND)
| CallSetForegroundWindow (hwnd : HWND)
| CallBringWindowToTop (hwnd : HWND)
| CallSetFocus (hwnd : HWND)
| CallGetProcAddress (name : string) (found : bool)
| CallGetDpiForWindow (hwnd : HWND) (result : Z)
| CallGetDC (hwnd : HWND) (result : HDC)
| CallGetDeviceCaps (hdc : HDC) (index : Z) (result : Z)
| CallReleaseDC (hwnd : HWND) (hdc : HDC).

(** A computation reads and writes the world and appends to the trace. *)
Definition M (A : Type) : Type := World -> A * World * list Effect.

Definition ret {A : Type} (a : A) : M A := fun w => (a, w, []).

Definition bind {A B : Type} (m : M A) (f : A -> M B) : M B :=
  fun w =>
    let '(a, w1, t1) := m w in
    let '(b, w2, t2) := f a w1 in
    (b, w2, t1 ++ t2).

Declare Scope m_scope.
Delimit Scope m_scope with M.
Notation "x <- c1 ;; c2" := (bind c1 (fun x => c2))
  (at level 61, c1 at next level, right associativity) : m_scope.
Notation "c1 ;; c2" := (bind c1 (fun _ => c2))
  (at level 61, right associativity) : m_scope.
Open Scope m_scope.

Definition emit (e : Effect) : M unit := fun w => (tt, w, [e]).
Definition get_hookState : M (option HookState) := fun w => (g_hookState w, w, []).
Definition put_hookState (s : option HookState) : M unit :=
  fun w => (tt, mkWorld s (win_event_hooks w) (input_links w), []).
(** A write through [g_hookState->]. *)
Definition update_hookState (f : HookState -> HookState) : M unit :=
  fun w => (tt, mkWorld (option_map f (g_hookState w)) (win_event_hooks w) (input_links w), []).
Definition when (b : bool) (m : M unit) : M unit := if b then m else ret tt.

Definition result_of {A : Type} (r : A * World * list Effect) : A := fst (fst r).
Definition world_of {A : Type} (r : A * World * list Effect) : World := snd (fst r).
Definition trace_of {A : Type} (r : A * World * list Effect) : list Effect := snd r.

(** Removal of the first occurrence of an entry from a table. *)
Fixpoint remove_first {A : Type} (eqb : A -> A -> bool) (x : A) (l : list A) : list A :=
  match l with
  | [] => []
  | y :: l' => if eqb x y then l' else y :: remove_first eqb x l'
  end.

(** ** The operating system's side of the hook calls *)

(** [SetWinEventHook]: the operating system answers with a hook handle, or
    with [NULL] when the registration fails.  A handle that is handed out is
    entered into the table of registered hooks. *)
Definition SetWinEventHook (eventMin eventMax flags : DWORD) (answer : HWINEVENTHOOK)
  : M HWINEVENTHOOK :=
  fun w =>
    (answer,
     mkWorld (g_hookState w)
             (if nonnull answer then win_event_hooks w ++ [answer] else win_event_hooks w)
             (input_links w),
     [CallSetWinEventHook eventMin eventMax flags answer]).

(** [UnhookWinEvent]: the registration behind the handle is removed. *)
Definition UnhookWinEvent (h : HWINEVENTHOOK) : M unit :=
  fun w =>
    (tt,
     mkWorld (g_hookState w) (remove_first Z.eqb h (win_event_hooks w)) (input_links w),
     [CallUnhookWinEvent h]).

Definition GetLastError (answer : DWORD) : M DWORD :=
  fun w => (answer, w, [CallGetLastError answer]).

(** [jsCallback.Reset()] on the current state: the reference is released
    and left empty. *)
Definition Reset_jsCallback : M unit :=
  fun w =>
    (tt,
     mkWorld (option_map (set_jsCallback None) (g_hookState w))
             (win_event_hooks w) (input_links w),
     [CallReset (match g_hookState w with Some s => jsCallback s | None => None end)]).

(** A read through [g_hookState->].  The source dereferences the pointer
    only where it is not null; the model reads [NULL] otherwise. *)
Definition read_handle (f : HookState -> HWINEVENTHOOK) : M HWINEVENTHOOK :=
  fun w => (match g_hookState w with Some s => f s | None => NULL end, w, []).

(** ** startWinEventHook and stopWinEventHook *)

(** What the operating system answers during one [StartWinEventHook]: the
    results of the four registrations and the value of [GetLastError]. *)
Record HookAnswers : Type := mkHookAnswers {
  answer1 : HWINEVENTHOOK;
  answer2 : HWINEVENTHOOK;
  answer3 : HWINEVENTHOOK;
  answer4 : HWINEVENTHOOK;
  last_error : DWORD
}.

Definition hook_flags : DWORD := Z.lor WINEVENT_OUTOFCONTEXT WINEVENT_SKIPOWNPROCESS.

(** The block "Stop existing hook if any" of [StartWinEventHook], for a
    state [s] that [g_hookState] points to. *)
Definition stop_existing (s : HookState) : M unit :=
  when (nonnull (hookHandle1 s)) (UnhookWinEvent (hookHandle1 s)) ;;
  when (nonnull (hookHandle2 s)) (UnhookWinEvent (hookHandle2 s)) ;;
  when (nonnull (hookHandle3 s)) (UnhookWinEvent (hookHandle3 s)) ;;
  when (nonnull (hookHandle4 s)) (UnhookWinEvent (hookHandle4 s)) ;;
  Reset_jsCallback ;;
  put_hookState None.

(** The four registrations of [StartWinEventHook], each stored into its
    field of the new state. *)
Definition set_hooks (os : HookAnswers) : M unit :=
  h1 <- SetWinEventHook EVENT_OBJECT_LOCATIONCHANGE EVENT_OBJECT_DESTROY hook_flags (answer1 os) ;;
  update_hookState (set_hookHandle1 h1) ;;
  h2 <- SetWinEventHook EVENT_SYSTEM_MOVESIZESTART EVENT_SYSTEM_MOVESIZEEND hook_flags (answer2 os) ;;
  update_hookState (set_hookHandle2 h2) ;;
  h3 <- SetWinEventHook EVENT_SYSTEM_MINIMIZESTART EVENT_SYSTEM_MINIMIZEEND hook_flags (answer3 os) ;;
  update_hookState (set_hookHandle3 h3) ;;
  h4 <- SetWinEventHook EVENT_SYSTEM_FOREGROUND EVENT_SYSTEM_FOREGROUND hook_flags (answer4 os) ;;
  update_hookState (set_hookHandle4 h4).

(** The part of [StartWinEventHook] from "Create new hook state" to the
    end: the new state is allocated, the four hooks are registered, and the
    state is discarded again when no registration succeeded. *)
Definition create_hook_state (n : Z) (cb : JsFunctionId) (os : HookAnswers) : M Outcome :=
  emit (CallPersistent cb) ;;
  put_hookState (Some (mkHookState (Uint32Value n) (Some cb) NULL NULL NULL NULL)) ;;
  set_hooks os ;;
  h1 <- read_handle hookHandle1 ;;
  h2 <- read_handle hookHandle2 ;;
  h3 <- read_handle hookHandle3 ;;
  h4 <- read_handle hookHandle4 ;;
  if negb (nonnull h1) && negb (nonnull h2) && negb (nonnull h3) && negb (nonnull h4)
  then
    error <- GetLastError (last_error os) ;;
    Reset_jsCallback ;;
    put_hookState None ;;
    ret (Throw (Error ("Failed to set WinEvent hooks. Error code: " ++ to_string error)))
  else ret (Return JsUndefined).

(** [StartWinEventHook].  The pattern on [info] is the argument check
    [info.Length() < 2 || !info[0].IsNumber() || !info[1].IsFunction()]. *)
Definition StartWinEventHook (info : list JsValue) (os : HookAnswers) : M Outcome :=
  match info with
  | JsNumber n :: JsFunction cb :: _ =>
      old <- get_hookState ;;
      match old with
      | Some s => stop_existing s
      | None => ret tt
      end ;;
      create_hook_state n cb os
  | _ => ret (Throw (TypeError "Expected (number pid, function callback)"))
  end.

(** [StopWinEventHook].  It looks at no argument. *)
Definition StopWinEventHook (info : list JsValue) : M Outcome :=
  old <- get_hookState ;;
  match old with
  | Some s =>
      when (nonnull (hookHandle1 s))
        (UnhookWinEvent (hookHandle1 s) ;; update_hookState (set_hookHandle1 NULL)) ;;
      when (nonnull (hookHandle2 s))
        (UnhookWinEvent (hookHandle2 s) ;; update_hookState (set_hookHandle2 NULL)) ;;
      when (nonnull (hookHandle3 s))
        (UnhookWinEvent (hookHandle3 s) ;; update_hookState (set_hookHandle3 NULL)) ;;
      when (nonnull (hookHandle4 s))
        (UnhookWinEvent (hookHandle4 s) ;; update_hookState (set_hookHandle4 NULL)) ;;
      Reset_jsCallback ;;
      put_hookState None
  | None => ret tt
  end ;;
  ret (Return JsUndefined).

(** ** The dispatch callback *)

(** The arguments of [WinEventProc] the callback looks at. *)
Record WinEvent : Type := mkWinEvent {
  event : DWORD;
  hwnd : HWND;
  idObject : LONG;
  idChild : LONG
}.

(** The desktop at the time of a notification: the process that owns each
    window that exists. *)
Definition Desktop := HWND -> option DWORD.

(** [GetWindowThreadProcessId(hwnd, &windowPid)]: the owner is written to
    [windowPid] when the window exists; otherwise the variable keeps what it
    held before the call. *)
Definition GetWindowThreadProcessId (owner : Desktop) (h : HWND) (windowPid : DWORD) : DWORD :=
  match owner h with
  | Some p => p
  | None => windowPid
  end.

(** The [switch] of [WinEventProc]; [None] is the [default] case. *)
Definition event_type (ev : DWORD) : option string :=
  if ev =? EVENT_OBJECT_LOCATIONCHANGE then Some "locationchange"%string
  else if ev =? EVENT_SYSTEM_MOVESIZESTART then Some "movestart"%string
  else if ev =? EVENT_SYSTEM_MOVESIZEEND then Some "moveend"%string
  else if ev =? EVENT_SYSTEM_MINIMIZESTART then Some "minimizestart"%string
  else if ev =? EVENT_SYSTEM_MINIMIZEEND then Some "minimizeend"%string
  else if ev =? EVENT_OBJECT_DESTROY then Some "destroy"%string
  else None.

(** [jsCallback.Call({ eventObj })] behind its [IsEmpty] guard. *)
Definition call_jsCallback (s : HookState) (eventObj : JsObject) : M unit :=
  match jsCallback s with
  | Some f => emit (CallJs f eventObj)
  | None => ret tt
  end.

(** [WinEventProc].  [uninit] is the content of the local [windowPid] before
    it is passed to [GetWindowThreadProcessId]; the source does not
    initialise it. *)
Definition WinEventProc (owner : Desktop) (uninit : DWORD) (e : WinEvent) : M unit :=
  st <- get_hookState ;;
  match st with
  | None => ret tt
  | Some s =>
      if negb (idObject e =? OBJID_WINDOW) || negb (idChild e =? CHILDID_SELF) then ret tt
      else if event e =? EVENT_SYSTEM_FOREGROUND then
        let windowPid := GetWindowThreadProcessId owner (hwnd e) uninit in
        call_jsCallback s
          (obj_set "pid" (JsNumber windowPid)
             (obj_set "hwnd" (JsBigInt (hwnd e))
                (obj_set "type" (JsString "foreground") [])))
      else
        let windowPid := GetWindowThreadProcessId owner (hwnd e) uninit in
        if negb (windowPid =? targetPid s) then ret tt
        else
          match event_type (event e) with
          | None => ret tt
          | Some eventType =>
              call_jsCallback s
                (obj_set "hwnd" (JsBigInt (hwnd e))
                   (obj_set "type" (JsString eventType) []))
          end
  end.

(** ** Runs of the subscription core *)

(** One step of the core as the outside sees it: a call of
    [startWinEventHook] or [stopWinEventHook] from JavaScript, or a
    notification from the operating system. *)
Inductive Op : Type :=
| OpStart (info : list JsValue) (os : HookAnswers)
| OpStop (info : list JsValue)
| OpEvent (owner : Desktop) (uninit : DWORD) (e : WinEvent).

Definition step (o : Op) : M unit :=
  match o with
  | OpStart info os => _ <- StartWinEventHook info os ;; ret tt
  | OpStop info => _ <- StopWinEventHook info ;; ret tt
  | OpEvent owner uninit e => WinEventProc owner uninit e
  end.

Fixpoint run (ops : list Op) : M unit :=
  match ops with
  | [] => ret tt
  | o :: rest => step o ;; run rest
  end.

(** The functions a trace calls, in order. *)
Fixpoint invoked (t : list Effect) : list JsFunctionId :=
  match t with
  | [] => []
  | CallJs f _ :: t' => f :: invoked t'
  | _ :: t' => invoked t'
  end.

(** The two states of the protocol. *)
Definition Stopped (w : World) : Prop :=
  g_hookState w = None /\ win_event_hooks w = [].

Definition Live (w : World) : Prop :=
  exists s f,
    g_hookState w = Some s /\ jsCallback s = Some f /\
    win_event_hooks w = live_handles s /\ live_handles s <> [].

(** The handler an operation would install, if it is a start that passes
    the argument check. *)
Definition installs (o : Op) : option JsFunctionId :=
  match o with
  | OpStart (JsNumber _ :: JsFunction cb :: _) _ => Some cb
  | _ => None
  end.

(** A step that is neither a stop nor a start that passes the argument
    check: a notification, or a start that is rejected for its arguments. *)
Definition quiet (o : Op) : Prop :=
  match o with
  | OpStart _ _ => installs o = None
  | OpStop _ => False
  | OpEvent _ _ _ => True
  end.

(** ** findWindowByPid *)

(** [RECT]. *)
Record RECT : Type := mkRECT {
  rect_left : LONG;
  rect_top : LONG;
  rect_right : LONG;
  rect_bottom : LONG
}.

(** A top-level window as [EnumWindows] hands it to the callback, with what
    the operating system answers to the callback's queries about it. *)
Record Window : Type := mkWindow {
  handle : HWND;
  IsWindowVisible : bool;
  window_pid : DWORD;           (* GetWindowThreadProcessId *)
  window_exStyle : Z;           (* GetWindowLongPtr(hwnd, GWL_EXSTYLE) *)
  window_title : string;        (* the window text *)
  GetWindowRect : option RECT   (* None when the call fails *)
}.

(** [GetWindowTextW(hwnd, title, 256)]: the number of characters copied,
    at most 255. *)
Definition GetWindowTextW (w : Window) : Z :=
  Z.min (Z.of_nat (String.length (window_title w))) 255.

(** [(rect.right - rect.left) * (rect.bottom - rect.top)] in [LONG]
    arithmetic. *)
Definition rect_area (r : RECT) : Z :=
  wrap_i32 (wrap_i32 (rect_right r - rect_left r) * wrap_i32 (rect_bottom r - rect_top r)).

(** [IsToolWindow]. *)
Definition IsToolWindow (w : Window) : bool :=
  negb (Z.land (window_exStyle w) WS_EX_TOOLWINDOW =? 0).

(** [GetWindowArea]. *)
Definition GetWindowArea (w : Window) : Z :=
  match GetWindowRect w with
  | Some rect => rect_area rect
  | None => 0
  end.

(** [struct EnumData]. *)
Record EnumData : Type := mkEnumData {
  pid : DWORD;
  bestHwnd : HWND;
  bestArea : Z
}.

(** [EnumProc]; the boolean is the [BOOL] the callback returns, [true] to
    continue the enumeration. *)
Definition EnumProc (w : Window) (ed : EnumData) : bool * EnumData :=
  if negb (IsWindowVisible w) then (true, ed)
  else if negb (window_pid w =? pid ed) then (true, ed)
  else if negb (Z.land (window_exStyle w) WS_EX_TOOLWINDOW =? 0) then (true, ed)
  else
    let titleLen := GetWindowTextW w in
    if titleLen =? 0 then (true, ed)
    else
      let area :=
        match GetWindowRect w with
        | Some rect => rect_area rect
        | None => 0
        end in
      if area >? bestArea ed
      then (true, mkEnumData (pid ed) (handle w) area)
      else (true, ed).

(** [EnumWindows]: the callback is run on the top-level windows in the
    order of the enumeration, until it returns [FALSE]. *)
Fixpoint EnumWindows (lpEnumFunc : Window -> EnumData -> bool * EnumData)
    (desktop : list Window) (ed : EnumData) : EnumData :=
  match desktop with
  | [] => ed
  | w :: rest =>
      let (continue, ed') := lpEnumFunc w ed in
      if continue then EnumWindows lpEnumFunc rest ed' else ed'
  end.

(** [FindWindowByPid]. *)
Definition FindWindowByPid (info : list JsValue) (desktop : list Window) : Outcome :=
  match info with
  | JsNumber n :: _ =>
      let targetPid := Uint32Value n in
      let data := EnumWindows EnumProc desktop (mkEnumData targetPid NULL 0) in
      if nonnull (bestHwnd data) then Return (JsBigInt (bestHwnd data))
      else Return JsNull
  | _ => Throw (TypeError "Expected number (pid)")
  end.

(** The four conditions on a candidate window. *)
Definition qualifies (p : DWORD) (w : Window) : bool :=
  IsWindowVisible w && (window_pid w =? p) && negb (IsToolWindow w)
  && negb (String.eqb (window_title w) "").

(** Width times height of the outer rectangle, as a mathematical integer;
    a window whose rectangle is not known counts as empty. *)
Definition outer_area (w : Window) : Z :=
  match GetWindowRect w with
  | Some r => (rect_right r - rect_left r) * (rect_bottom r - rect_top r)
  | None => 0
  end.

(** The selection as the specification words it: among the qualifying
    windows the one of maximum area, the first seen among equals; nothing
    when no window qualifies. *)
Fixpoint first_largest (best : Window) (ws : list Window) : Window :=
  match ws with
  | [] => best
  | w :: rest =>
      if outer_area w >? outer_area best then first_largest w rest
      else first_largest best rest
  end.

Definition findWindowByProcessId_spec (p : DWORD) (desktop : list Window) : option HWND :=
  match filter (qualifies p) desktop with
  | [] => None
  | w :: rest => Some (handle (first_largest w rest))
  end.

(** ** getDpiScaleForHwnd *)

(** What the operating system answers during [GetDpiScaleForHwnd]. *)
Record DpiAnswers : Type := mkDpiAnswers {
  user32 : HMODULE;                       (* GetModuleHandleW(L"user32.dll") *)
  GetDpiForWindow : option (HWND -> Z);   (* GetProcAddress(user32, "GetDpiForWindow") *)
  GetDC_answer : HWND -> HDC;
  GetDeviceCaps_answer : HDC -> Z -> Z
}.

Definition GetProcAddress {A : Type} (name : string) (answer : option A) : M (option A) :=
  fun w => (answer, w,
            [CallGetProcAddress name (match answer with Some _ => true | None => false end)]).

Definition GetDC (h : HWND) (answer : HDC) : M HDC :=
  fun w => (answer, w, [CallGetDC h answer]).

Definition GetDeviceCaps (hdc : HDC) (index : Z) (answer : Z) : M Z :=
  fun w => (answer, w, [CallGetDeviceCaps hdc index answer]).

(** [GetDpiScaleForHwnd].  [dpi / 96.0] is given by the rational [dpi # 96]. *)
Definition GetDpiScaleForHwnd (info : list JsValue) (os : DpiAnswers) : M Outcome :=
  match info with
  | JsBigInt z :: _ =>
      let hwnd := Int64Value z in
      if negb (nonnull (user32 os)) then ret (Return (JsDouble (1 # 1)))
      else
        proc <- GetProcAddress "GetDpiForWindow" (GetDpiForWindow os) ;;
        match proc with
        | Some GetDpiForWindow_ =>
            let dpi := GetDpiForWindow_ hwnd in
            emit (CallGetDpiForWindow hwnd dpi) ;;
            ret (Return (JsDouble (dpi # 96)))
        | None =>
            hdc <- GetDC hwnd (GetDC_answer os hwnd) ;;
            dpi <- GetDeviceCaps hdc LOGPIXELSX (GetDeviceCaps_answer os hdc LOGPIXELSX) ;;
            emit (CallReleaseDC hwnd hdc) ;;
            ret (Return (JsDouble (dpi # 96)))
        end
  | _ => ret (Throw (TypeError "Expected BigInt (hwnd)"))
  end.

(** ** forceActivateWindow *)

(** What the operating system answers during [ForceActivateWindow]. *)
Record ActivateAnswers : Type := mkActivateAnswers {
  IsWindow : HWND -> bool;
  foreground_before : HWND;        (* the first GetForegroundWindow() *)
  window_thread : HWND -> DWORD;   (* GetWindowThreadProcessId(h, NULL) *)
  GetCurrentThreadId : DWORD;
  attach_answer : bool;            (* AttachThreadInput(.., TRUE) *)
  IsIconic : HWND -> bool;
  foreground_after : HWND          (* the last GetForegroundWindow() *)
}.

Definition link_eqb (a b : DWORD * DWORD) : bool :=
  (fst a =? fst b) && (snd a =? snd b).

(** [AttachThreadInput].  Attaching succeeds or fails as the operating
    system answers ([attach_answer]) and a success enters the link into the
    table; detaching removes the link and succeeds when there was one. *)
Definition AttachThreadInput (os : ActivateAnswers) (idAttach idAttachTo : DWORD)
    (fAttach : bool) : M bool :=
  fun w =>
    let links := input_links w in
    let result :=
      if fAttach then attach_answer os
      else existsb (link_eqb (idAttach, idAttachTo)) links in
    let links' :=
      if fAttach then (if attach_answer os then (idAttach, idAttachTo) :: links else links)
      else remove_first link_eqb (idAttach, idAttachTo) links in
    (result,
     mkWorld (g_hookState w) (win_event_hooks w) links',
     [CallAttachThreadInput idAttach idAttachTo fAttach result]).

(** [ForceActivateWindow]. *)
Definition ForceActivateWindow (info : list JsValue) (os : ActivateAnswers) : M Outcome :=
  match info with
  | JsBigInt z :: _ =>
      let hwnd := Int64Value z in
      if negb (IsWindow os hwnd) then ret (Return (JsBoolean false))
      else
        let fgHwnd := foreground_before os in
        let fgThreadId := if nonnull fgHwnd then window_thread os fgHwnd else 0 in
        let targetThreadId := window_thread os hwnd in
        let currentThreadId := GetCurrentThreadId os in
        attached <-
          (if negb (fgThreadId =? 0) && negb (fgThreadId =? currentThreadId)
           then AttachThreadInput os currentThreadId fgThreadId true
           else ret false) ;;
        when (IsIconic os hwnd) (emit (CallShowWindow hwnd)) ;;
        emit (CallSetForegroundWindow hwnd) ;;
        emit (CallBringWindowToTop hwnd) ;;
        emit (CallSetFocus hwnd) ;;
        when attached
          (_ <- AttachThreadInput os currentThreadId fgThreadId false ;; ret tt) ;;
        let newFgHwnd := foreground_after os in
        let success := newFgHwnd =? hwnd in
        ret (Return (JsBoolean success))
  | _ => ret (Throw (TypeError "Expected BigInt (hwnd)"))
  end.

(** The [AttachThreadInput] calls of a trace, in order. *)
Fixpoint attach_calls (t : list Effect) : list (DWORD * DWORD * bool * bool) :=
  match t with
  | [] => []
  | CallAttachThreadInput a b f r :: t' => (a, b, f, r) :: attach_calls t'
  | _ :: t' => attach_calls t'
  end.

(** The invariant of the subscription record. *)
Definition consistent (w : World) : Prop := Stopped w \/ Live w.

(** The function the subscription record holds, if any. *)
Definition registered (w : World) : option JsFunctionId :=
  match g_hookState w with
  | Some s => jsCallback s
  | None => None
  end.

(** The state a start leaves behind when a registration succeeded. *)
Definition installed (n : Z) (cb : JsFunctionId) (os : HookAnswers) : HookState :=
  mkHookState (Uint32Value n) (Some cb) (answer1 os) (answer2 os) (answer3 os) (answer4 os).

(** All four registrations of a start failed. *)
Definition all_failed (os : HookAnswers) : bool :=
  negb (nonnull (answer1 os)) && negb (nonnull (answer2 os))
  && negb (nonnull (answer3 os)) && negb (nonnull (answer4 os)).

(** The registration calls of a start, as they show in the trace. *)
Definition registration_calls (os : HookAnswers) : list Effect :=
  [CallSetWinEventHook EVENT_OBJECT_LOCATIONCHANGE EVENT_OBJECT_DESTROY hook_flags (answer1 os);
   CallSetWinEventHook EVENT_SYSTEM_MOVESIZESTART EVENT_SYSTEM_MOVESIZEEND hook_flags (answer2 os);
   CallSetWinEventHook EVENT_SYSTEM_MINIMIZESTART EVENT_SYSTEM_MINIMIZEEND hook_flags (answer3 os);
   CallSetWinEventHook EVENT_SYSTEM_FOREGROUND EVENT_SYSTEM_FOREGROUND hook_flags (answer4 os)].

(** The calls that tear a state down: one release per live hook handle,
    then the release of the callback. *)
Definition teardown_calls (s : HookState) : list Effect :=
  map CallUnhookWinEvent (live_handles s) ++ [CallReset (jsCallback s)].

(** The table of registered hooks after the given handles were released
    one after the other. *)
Definition unhook_all (hs table : list HWINEVENTHOOK) : list HWINEVENTHOOK :=
  fold_left (fun t h => remove_first Z.eqb h t) hs table.

(** Outcome, world and trace of [create_hook_state]. *)
Definition start_outcome (os : HookAnswers) : Outcome :=
  if all_failed os
  then Throw (Error ("Failed to set WinEvent hooks. Error code: " ++ to_string (last_error os)))
  else Return JsUndefined.

Definition start_world (n : Z) (cb : JsFunctionId) (os : HookAnswers)
    (table : list HWINEVENTHOOK) (links : list (DWORD * DWORD)) : World :=
  if all_failed os then mkWorld None table links
  else mkWorld (Some (installed n cb os)) (table ++ live_handles (installed n cb os)) links.

Definition start_calls (cb : JsFunctionId) (os : HookAnswers) : list Effect :=
  CallPersistent cb :: registration_calls os ++
  (if all_failed os then [CallGetLastError (last_error os); CallReset (Some cb)] else []).

(** The seven values of the [type] field of an event object. *)
Definition event_kinds : list string :=
  ["foreground"; "locationchange"; "movestart"; "moveend";
   "minimizestart"; "minimizeend"; "destroy"]%string.

(** The raw event codes the dispatch callback knows. *)
Definition known_events : list DWORD :=
  [EVENT_SYSTEM_FOREGROUND; EVENT_OBJECT_LOCATIONCHANGE; EVENT_SYSTEM_MOVESIZESTART;
   EVENT_SYSTEM_MOVESIZEEND; EVENT_SYSTEM_MINIMIZESTART; EVENT_SYSTEM_MINIMIZEEND;
   EVENT_OBJECT_DESTROY].

(** The raw event code behind each kind. *)
Definition raw_event (kind : string) : DWORD :=
  if String.eqb kind "foreground" then EVENT_SYSTEM_FOREGROUND
  else if String.eqb kind "locationchange" then EVENT_OBJECT_LOCATIONCHANGE
  else if String.eqb kind "movestart" then EVENT_SYSTEM_MOVESIZESTART
  else if String.eqb kind "moveend" then EVENT_SYSTEM_MOVESIZEEND
  else if String.eqb kind "minimizestart" then EVENT_SYSTEM_MINIMIZESTART
  else if String.eqb kind "minimizeend" then EVENT_SYSTEM_MINIMIZEEND
  else EVENT_OBJECT_DESTROY.

(** The rectangle arithmetic of a window stays within 32 bits. *)
Definition rect_fits (w : Window) : Prop :=
  match GetWindowRect w with
  | Some r =>
      - 2 ^ 31 <= rect_right r - rect_left r < 2 ^ 31 /\
      - 2 ^ 31 <= rect_bottom r - rect_top r < 2 ^ 31 /\
      - 2 ^ 31 <= (rect_right r - rect_left r) * (rect_bottom r - rect_top r) < 2 ^ 31
  | None => True
  end.

(** ** Sample inputs *)

(** Answers of the operating system to a start: three registrations
    succeed and the minimize hook is refused; every registration is refused
    with error 5 (access denied); only the foreground hook is granted. *)
Definition partial_answers : HookAnswers := mkHookAnswers 0x101 0x102 NULL 0x104 0.
Definition refused_answers : HookAnswers := mkHookAnswers NULL NULL NULL NULL 5.
Definition single_answers : HookAnswers := mkHookAnswers NULL NULL NULL 0x204 0.

(** Three windows of process 4242, of areas 100, 200 and 0, and one whose
    rectangle cannot be read. *)
Definition small_window : Window :=
  mkWindow 0x1A0 true 4242 0 "Counter-Strike 2" (Some (mkRECT 0 0 10 10)).
Definition large_window : Window :=
  mkWindow 0x1B0 true 4242 0 "Counter-Strike 2" (Some (mkRECT 0 0 20 10)).
Definition flat_window : Window :=
  mkWindow 0x1C0 true 4242 0 "Counter-Strike 2" (Some (mkRECT 10 0 10 50)).
Definition unmeasured_window : Window :=
  mkWindow 0x1D0 true 4242 0 "Counter-Strike 2" None.

(** A desktop on which window 0x2B0 belongs to process 999 and every other
    window to process 4242. *)
Definition sample_desktop : Desktop :=
  fun h => if h =? 0x2B0 then Some 999 else Some 4242.

(** A foreground change to window 0x2B0 and a move of window 0x1A0. *)
Definition foreground_event : WinEvent :=
  mkWinEvent EVENT_SYSTEM_FOREGROUND 0x2B0 OBJID_WINDOW CHILDID_SELF.
Definition move_event : WinEvent :=
  mkWinEvent EVENT_SYSTEM_MOVESIZESTART 0x1A0 OBJID_WINDOW CHILDID_SELF.

(** Notifications, a stop and a failed start that follow a restart. *)
Definition sample_ops : list Op :=
  [OpEvent sample_desktop 0 foreground_event;
   OpEvent sample_desktop 0 move_event;
   OpStart [JsNumber 4242] partial_answers;
   OpStop [];
   OpEvent sample_desktop 0 foreground_event].

(** Answers to the DPI queries: a system without [GetDpiForWindow] whose
    device contexts report 120 dots per inch, a system with it that reports
    144 for every window, and a process in which [user32] is not loaded. *)
Definition legacy_dpi : DpiAnswers :=
  mkDpiAnswers 0x7FFA0000 None (fun _ => 0x99) (fun _ _ => 120).
Definition modern_dpi : DpiAnswers :=
  mkDpiAnswers 0x7FFA0000 (Some (fun _ => 144)) (fun _ => 0x99) (fun _ _ => 96).
Definition bare_dpi : DpiAnswers :=
  mkDpiAnswers NULL None (fun _ => NULL) (fun _ _ => 0).

(** Answers to an activation: window 0x1A0 exists and is minimized, window
    0x2B0 of thread 7 has the foreground, the caller runs on thread 3, the
    attach succeeds and the target ends up in the foreground.  In the second
    record no window exists. *)
Definition granted_activation : ActivateAnswers :=
  mkActivateAnswers (fun h => h =? 0x1A0) 0x2B0 (fun h => if h =? 0x2B0 then 7 else 5)
    3 true (fun _ => true) 0x1A0.
Definition stale_activation : ActivateAnswers :=
  mkActivateAnswers (fun _ => false) 0x2B0 (fun _ => 7) 3 true (fun _ => false) 0x2B0.

(** ** findProcessIdByName *)

(** [PROCESSENTRY32], with the two fields the scan reads. *)
Record PROCESSENTRY32 : Type := mkPROCESSENTRY32 {
  th32ProcessID : DWORD;
  szExeFile : string
}.

Definition INVALID_HANDLE_VALUE : Z := -1.

(** [std::tolower] on an [unsigned char] in the "C" locale, which is the
    locale of a program that never calls [setlocale]: the letters [A] to
    [Z] are moved to [a] to [z] and every other byte is kept. *)
Definition tolower (c : ascii) : ascii :=
  let n := N_of_ascii c in
  if ((65 <=? n) && (n <=? 90))%N then ascii_of_N (n + 32) else c.

(** The loops [for (char c : name) lower += std::tolower(c)]. *)
Fixpoint lowercase (s : string) : string :=
  match s with
  | EmptyString => EmptyString
  | String c s' => String (tolower c) (lowercase s')
  end.

(** The test [lowerEntryName == lowerProcessName]. *)
Definition names_match (entryName processName : string) : bool :=
  String.eqb (lowercase entryName) (lowercase processName).

(** The calls of the process scan, as they appear in its trace. *)
Inductive ToolhelpCall : Type :=
| CallCreateToolhelp32Snapshot (result : Z)
| CallProcess32First (found : bool)
| CallProcess32Next (found : bool)
| CallCloseHandle (h : Z).

(** The [do ... while (Process32Next(snapshot, &entry))] loop, entered with
    the entry [Process32First] produced; [rest] holds the entries that
    [Process32Next] will produce. *)
Fixpoint scan_processes (processName : string) (snapshot : Z)
    (entry : PROCESSENTRY32) (rest : list PROCESSENTRY32)
  : Outcome * list ToolhelpCall :=
  if names_match (szExeFile entry) processName
  then (Return (JsNumber (th32ProcessID entry)), [CallCloseHandle snapshot])
  else
    match rest with
    | [] => (Return JsNull, [CallProcess32Next false; CallCloseHandle snapshot])
    | next :: rest' =>
        let (r, t) := scan_processes processName snapshot next rest' in
        (r, CallProcess32Next true :: t)
    end.

(** [FindProcessIdByName].  [snapshot] is what [CreateToolhelp32Snapshot]
    answers and [processes] the entries of the snapshot in the order the
    operating system lists them. *)
Definition FindProcessIdByName (info : list JsValue) (snapshot : Z)
    (processes : list PROCESSENTRY32) : Outcome * list ToolhelpCall :=
  match info with
  | JsString processName :: _ =>
      if snapshot =? INVALID_HANDLE_VALUE
      then (Return JsNull, [CallCreateToolhelp32Snapshot snapshot])
      else
        match processes with
        | [] =>
            (Return JsNull,
             [CallCreateToolhelp32Snapshot snapshot; CallProcess32First false;
              CallCloseHandle snapshot])
        | entry :: rest =>
            let (r, t) := scan_processes processName snapshot entry rest in
            (r, CallCreateToolhelp32Snapshot snapshot :: CallProcess32First true :: t)
        end
  | _ => (Throw (TypeError "Expected string (processName)"), [])
  end.

(** The handles a trace of the scan closes. *)
Fixpoint closed_handles (t : list ToolhelpCall) : list Z :=
  match t with
  | [] => []
  | CallCloseHandle h :: t' => h :: closed_handles t'
  | _ :: t' => closed_handles t'
  end.

(** Two bytes that are equal, or the same letter in the two cases. *)
Definition same_letter (c d : ascii) : Prop :=
  let n := N_of_ascii c in
  let m := N_of_ascii d in
  (n = m \/ (65 <= n <= 90 /\ m = n + 32) \/ (65 <= m <= 90 /\ n = m + 32))%N.

(** ** getClientBoundsOnScreen, isMinimized and getForegroundPid *)

(** [POINT]. *)
Record POINT : Type := mkPOINT {
  pt_x : LONG;
  pt_y : LONG
}.

(** How [GetClientBoundsOnScreen] ends: it is the one export that returns
    an object. *)
Inductive ObjectOutcome : Type :=
| ReturnObject (o : JsObject)
| ReturnNull
| ThrowError (e : JsError).

(** [GetClientBoundsOnScreen].  [GetClientRect_answer] and
    [ClientToScreen_answer] are what the operating system answers for a
    window; [None] is a call that fails. *)
Definition GetClientBoundsOnScreen (info : list JsValue)
    (GetClientRect_answer : HWND -> option RECT)
    (ClientToScreen_answer : HWND -> POINT -> option POINT) : ObjectOutcome :=
  match info with
  | JsBigInt z :: _ =>
      let hwnd := Int64Value z in
      match GetClientRect_answer hwnd with
      | None => ReturnNull
      | Some clientRect =>
          let topLeft := mkPOINT (rect_left clientRect) (rect_top clientRect) in
          let bottomRight := mkPOINT (rect_right clientRect) (rect_bottom clientRect) in
          match ClientToScreen_answer hwnd topLeft with
          | None => ReturnNull
          | Some topLeft' =>
              match ClientToScreen_answer hwnd bottomRight with
              | None => ReturnNull
              | Some bottomRight' =>
                  ReturnObject
                    (obj_set "height" (JsNumber (wrap_i32 (pt_y bottomRight' - pt_y topLeft')))
                       (obj_set "width" (JsNumber (wrap_i32 (pt_x bottomRight' - pt_x topLeft')))
                          (obj_set "y" (JsNumber (pt_y topLeft'))
                             (obj_set "x" (JsNumber (pt_x topLeft')) []))))
              end
          end
      end
  | _ => ThrowError (TypeError "Expected BigInt (hwnd)")
  end.

(** [IsMinimized]; [IsIconic_answer] is what [IsIconic] answers. *)
Definition IsMinimized (info : list JsValue) (IsIconic_answer : HWND -> bool) : Outcome :=
  match info with
  | JsBigInt z :: _ =>
      let hwnd := Int64Value z in
      Return (JsBoolean (IsIconic_answer hwnd))
  | _ => Throw (TypeError "Expected BigInt (hwnd)")
  end.

(** [GetForegroundPid].  It looks at no argument.  [fgHwnd] is what
    [GetForegroundWindow] answers and [uninit] the content of the local
    [pid] before the call that is to fill it. *)
Definition GetForegroundPid (info : list JsValue) (fgHwnd : HWND) (owner : Desktop)
    (uninit : DWORD) : Outcome :=
  if negb (nonnull fgHwnd) then Return JsNull
  else
    let pid := GetWindowThreadProcessId owner fgHwnd uninit in
    Return (JsNumber pid).

(** ** The argument checks, as the source writes them *)

Definition IsNumber (v : JsValue) : bool :=
  match v with JsNumber _ => true | _ => false end.
Definition IsString (v : JsValue) : bool :=
  match v with JsString _ => true | _ => false end.
Definition IsBigInt (v : JsValue) : bool :=
  match v with JsBigInt _ => true | _ => false end.
Definition IsFunction (v : JsValue) : bool :=
  match v with JsFunction _ => true | _ => false end.

(** [info[i]]: an argument that was not passed reads as [undefined]. *)
Definition arg (info : list JsValue) (i : nat) : JsValue := nth i info JsUndefined.

(** [info.Length() < 1 || !info[0].Is...()] and, for the start,
    [info.Length() < 2 || !info[0].IsNumber() || !info[1].IsFunction()]. *)
Definition rejects_first (has_type : JsValue -> bool) (info : list JsValue) : bool :=
  (List.length info <? 1)%nat || negb (has_type (arg info 0)).
Definition rejects_start (info : list JsValue) : bool :=
  (List.length info <? 2)%nat || negb (IsNumber (arg info 0)) || negb (IsFunction (arg info 1)).

(** ** Hook handles and event ranges in a trace *)

(** The hook handles a trace obtained from [SetWinEventHook], and the ones
    it passed to [UnhookWinEvent], in order. *)
Fixpoint granted (t : list Effect) : list HWINEVENTHOOK :=
  match t with
  | [] => []
  | CallSetWinEventHook _ _ _ r :: t' => if nonnull r then r :: granted t' else granted t'
  | _ :: t' => granted t'
  end.

Fixpoint released (t : list Effect) : list HWINEVENTHOOK :=
  match t with
  | [] => []
  | CallUnhookWinEvent h :: t' => h :: released t'
  | _ :: t' => released t'
  end.

(** The event ranges [eventMin], [eventMax] a trace passed to
    [SetWinEventHook], in order. *)
Fixpoint event_ranges (t : list Effect) : list (DWORD * DWORD) :=
  match t with
  | [] => []
  | CallSetWinEventHook lo hi _ _ :: t' => (lo, hi) :: event_ranges t'
  | _ :: t' => event_ranges t'
  end.

(** An event code lies in one of the ranges. *)
Definition covered (ranges : list (DWORD * DWORD)) (ev : DWORD) : Prop :=
  exists lo hi, In (lo, hi) ranges /\ lo <= ev <= hi.

(** The calls of a trace other than [AttachThreadInput]. *)
Fixpoint window_calls (t : list Effect) : list Effect :=
  match t with
  | [] => []
  | CallAttachThreadInput _ _ _ _ :: t' => window_calls t'
  | e :: t' => e :: window_calls t'
  end.

(** Sample processes. *)
Definition sample_processes : list PROCESSENTRY32 :=
  [mkPROCESSENTRY32 0 "[System Process]";
   mkPROCESSENTRY32 812 "cs2.exe.bak";
   mkPROCESSENTRY32 4242 "CS2.EXE";
   mkPROCESSENTRY32 5150 "cs2.exe"].

(** * Properties *)

Arguments to_string : simpl never.
Arguments Uint32Value : simpl never.
Arguments Int64Value : simpl never.
Arguments start_calls : simpl never.
Arguments teardown_calls : simpl never.
Arguments start_world : simpl never.
Arguments start_outcome : simpl never.

(** ** Teardown and registration *)

Lemma unhook_all_self (l : list HWINEVENTHOOK) : unhook_all l l = [].
Proof.
  unfold unhook_all. induction l as [|h l IH]; simpl.
  - reflexivity.
  - rewrite Z.eqb_refl. exact IH.
Qed.

Lemma stop_existing_run (s : HookState) (table : list HWINEVENTHOOK)
    (links : list (DWORD * DWORD)) :
  stop_existing s (mkWorld (Some s) table links) =
    (tt, mkWorld None (unhook_all (live_handles s) table) links, teardown_calls s).
Proof.
  destruct s as [t c h1 h2 h3 h4].
  unfold stop_existing, teardown_calls, unhook_all, live_handles, when, bind, ret,
    UnhookWinEvent, Reset_jsCallback, put_hookState; simpl.
  destruct (nonnull h1), (nonnull h2), (nonnull h3), (nonnull h4); reflexivity.
Qed.

Lemma set_hooks_run (os : HookAnswers) (n : Z) (cb : JsFunctionId)
    (table : list HWINEVENTHOOK) (links : list (DWORD * DWORD)) :
  set_hooks os
    (mkWorld (Some (mkHookState (Uint32Value n) (Some cb) NULL NULL NULL NULL)) table links) =
    (tt, mkWorld (Some (installed n cb os)) (table ++ live_handles (installed n cb os)) links,
     registration_calls os).
Proof.
  destruct os as [a1 a2 a3 a4 e].
  unfold set_hooks, installed, live_handles, registration_calls, bind, ret,
    SetWinEventHook, update_hookState; simpl.
  destruct (nonnull a1), (nonnull a2), (nonnull a3), (nonnull a4);
    rewrite <- ?app_assoc; simpl; rewrite ?app_nil_r; reflexivity.
Qed.

Lemma create_hook_state_run (n : Z) (cb : JsFunctionId) (os : HookAnswers)
    (table : list HWINEVENTHOOK) (links : list (DWORD * DWORD)) :
  create_hook_state n cb os (mkWorld None table links) =
    (start_outcome os, start_world n cb os table links, start_calls cb os).
Proof.
  unfold create_hook_state.
  unfold bind at 1. unfold emit at 1.
  unfold bind at 1. unfold put_hookState at 1. cbn [win_event_hooks input_links].
  unfold bind at 1. rewrite set_hooks_run.
  destruct os as [a1 a2 a3 a4 e].
  unfold start_outcome, start_world, start_calls, all_failed, installed, live_handles,
    registration_calls, bind, read_handle, GetLastError, Reset_jsCallback,
    put_hookState, ret; simpl.
  destruct (nonnull a1), (nonnull a2), (nonnull a3), (nonnull a4);
    simpl; rewrite ?app_nil_r; reflexivity.
Qed.

(** A start that passes the argument check, run on a world without a
    state. *)
Lemma start_run_stopped (n : Z) (cb : JsFunctionId) (rest : list JsValue)
    (os : HookAnswers) (table : list HWINEVENTHOOK) (links : list (DWORD * DWORD)) :
  StartWinEventHook (JsNumber n :: JsFunction cb :: rest) os (mkWorld None table links) =
    (start_outcome os, start_world n cb os table links, start_calls cb os).
Proof.
  unfold StartWinEventHook, bind, get_hookState, ret; cbn [g_hookState].
  rewrite create_hook_state_run. reflexivity.
Qed.

(** The same start run on a world with a state [s]. *)
Lemma start_run_live (n : Z) (cb : JsFunctionId) (rest : list JsValue)
    (os : HookAnswers) (s : HookState) (table : list HWINEVENTHOOK)
    (links : list (DWORD * DWORD)) :
  StartWinEventHook (JsNumber n :: JsFunction cb :: rest) os (mkWorld (Some s) table links) =
    (start_outcome os,
     start_world n cb os (unhook_all (live_handles s) table) links,
     teardown_calls s ++ start_calls cb os).
Proof.
  unfold StartWinEventHook, bind, get_hookState; cbn [g_hookState].
  rewrite stop_existing_run, create_hook_state_run. reflexivity.
Qed.

(** A start that fails the argument check changes nothing and calls
    nothing. *)
Lemma start_run_invalid (info : list JsValue) (os : HookAnswers) (w : World) :
  installs (OpStart info os) = None ->
  StartWinEventHook info os w =
    (Throw (TypeError "Expected (number pid, function callback)"), w, []).
Proof.
  unfold installs, StartWinEventHook.
  destruct info as [|[] [|[] rest]]; intros H; try reflexivity; discriminate H.
Qed.

Lemma stop_run_stopped (info : list JsValue) (table : list HWINEVENTHOOK)
    (links : list (DWORD * DWORD)) :
  StopWinEventHook info (mkWorld None table links) =
    (Return JsUndefined, mkWorld None table links, []).
Proof. reflexivity. Qed.

Lemma stop_run_live (info : list JsValue) (s : HookState) (table : list HWINEVENTHOOK)
    (links : list (DWORD * DWORD)) :
  StopWinEventHook info (mkWorld (Some s) table links) =
    (Return JsUndefined, mkWorld None (unhook_all (live_handles s) table) links,
     teardown_calls s).
Proof.
  destruct s as [t c h1 h2 h3 h4].
  unfold StopWinEventHook, teardown_calls, unhook_all, live_handles, when, bind, ret,
    get_hookState, UnhookWinEvent, Reset_jsCallback, put_hookState, update_hookState; simpl.
  destruct (nonnull h1), (nonnull h2), (nonnull h3), (nonnull h4); reflexivity.
Qed.

Create Rewrite HintDb hook_run.
#[local] Hint Rewrite start_run_live start_run_stopped stop_run_live stop_run_stopped
  unhook_all_self : hook_run.

(** The dispatch callback leaves the world as it is. *)
Lemma WinEventProc_world (owner : Desktop) (uninit : DWORD) (e : WinEvent) (w : World) :
  world_of (WinEventProc owner uninit e w) = w.
Proof.
  unfold WinEventProc, bind, get_hookState, call_jsCallback, emit, ret, world_of.
  destruct (g_hookState w) as [s|]; simpl; [|reflexivity].
  repeat match goal with
         | |- context [if ?b then _ else _] => destruct b; simpl
         | |- context [match ?x with Some _ => _ | None => _ end] => destruct x; simpl
         end; reflexivity.
Qed.

(** ** What a trace invokes *)

Lemma invoked_app (t1 t2 : list Effect) : invoked (t1 ++ t2) = invoked t1 ++ invoked t2.
Proof.
  induction t1 as [|e t1 IH]; simpl; [reflexivity|].
  destruct e; simpl; rewrite ?IH; reflexivity.
Qed.

Lemma invoked_unhooks (l : list HWINEVENTHOOK) : invoked (map CallUnhookWinEvent l) = [].
Proof. induction l; simpl; auto. Qed.

Lemma invoked_teardown (s : HookState) : invoked (teardown_calls s) = [].
Proof.
  unfold teardown_calls. rewrite invoked_app, invoked_unhooks. reflexivity.
Qed.

Lemma invoked_start_calls (cb : JsFunctionId) (os : HookAnswers) :
  invoked (start_calls cb os) = [].
Proof. unfold start_calls. cbn. destruct (all_failed os); reflexivity. Qed.

Lemma installs_inv (info : list JsValue) (os : HookAnswers) (cb : JsFunctionId) :
  installs (OpStart info os) = Some cb ->
  exists n rest, info = JsNumber n :: JsFunction cb :: rest.
Proof.
  unfold installs. destruct info as [|[] [|[] rest]]; intros H; try discriminate H.
  injection H as ->. eauto.
Qed.

Lemma registered_start_world (n : Z) (cb : JsFunctionId) (os : HookAnswers)
    (table : list HWINEVENTHOOK) (links : list (DWORD * DWORD)) :
  registered (start_world n cb os table links) = if all_failed os then None else Some cb.
Proof. unfold start_world. destruct (all_failed os); reflexivity. Qed.

Create Rewrite HintDb invoked.
#[local] Hint Rewrite app_nil_r invoked_app invoked_teardown invoked_start_calls : invoked.

(** Everything the dispatch callback invokes is the registered function. *)
Lemma WinEventProc_invoked (owner : Desktop) (uninit : DWORD) (e : WinEvent) (w : World)
    (h : JsFunctionId) :
  In h (invoked (trace_of (WinEventProc owner uninit e w))) -> registered w = Some h.
Proof.
  unfold WinEventProc, registered, bind, get_hookState, call_jsCallback, emit, ret, trace_of.
  destruct (g_hookState w) as [s|]; simpl; [|tauto].
  repeat match goal with
         | |- context [if ?b then _ else _] => destruct b; simpl
         | |- context [match ?x with Some _ => _ | None => _ end] => destruct x; simpl
         end; intros H; try tauto; destruct H as [->|[]]; reflexivity.
Qed.

(** A step invokes the registered function only, and registers nothing
    but what it installs. *)
Lemma step_invoked (o : Op) (w : World) (h : JsFunctionId) :
  In h (invoked (trace_of (step o w))) -> registered w = Some h.
Proof.
  destruct o as [info os|info|owner uninit e]; simpl.
  - destruct (installs (OpStart info os)) as [cb|] eqn:E.
    + apply installs_inv in E as (n & rest & ->).
      destruct w as [[s|] table links]; unfold bind;
        autorewrite with hook_run; unfold trace_of, ret; cbn [snd];
        autorewrite with invoked; simpl; tauto.
    + unfold bind. rewrite (start_run_invalid _ _ _ E). simpl. tauto.
  - destruct w as [[s|] table links]; unfold bind;
      autorewrite with hook_run; unfold trace_of, ret; cbn [snd];
      autorewrite with invoked; simpl; tauto.
  - apply WinEventProc_invoked.
Qed.

Lemma step_registered (o : Op) (w : World) (h : JsFunctionId) :
  registered (world_of (step o w)) = Some h ->
  registered w = Some h \/ installs o = Some h.
Proof.
  destruct o as [info os|info|owner uninit e]; simpl.
  - destruct (installs (OpStart info os)) as [cb|] eqn:E.
    + destruct (installs_inv _ _ _ E) as (n & rest & ->).
      destruct w as [[s|] table links]; unfold bind;
        autorewrite with hook_run; simpl;
        unfold world_of; simpl; rewrite registered_start_world;
        destruct (all_failed os); intros H; try discriminate H; right; exact H.
    + unfold bind. rewrite (start_run_invalid _ _ _ E). simpl. auto.
  - destruct w as [[s|] table links]; unfold bind;
      autorewrite with hook_run; simpl;
      unfold world_of, registered; simpl; intros H; discriminate H.
  - rewrite WinEventProc_world. auto.
Qed.

Lemma run_cons (o : Op) (ops : list Op) (w : World) :
  run (o :: ops) w =
    (tt, world_of (run ops (world_of (step o w))),
     trace_of (step o w) ++ trace_of (run ops (world_of (step o w)))).
Proof.
  simpl. unfold bind, world_of, trace_of.
  destruct (step o w) as [[[] w1] t1]; simpl.
  destruct (run ops w1) as [[[] w2] t2]; reflexivity.
Qed.

(** Quiet steps leave the world as it is. *)
Lemma run_quiet (ops : list Op) :
  forall w : World, Forall quiet ops -> world_of (run ops w) = w.
Proof.
  induction ops as [|o ops IH]; intros w Hq; [reflexivity|].
  inversion Hq as [|? ? Ho Hrest]; subst.
  rewrite run_cons. unfold world_of at 1. cbn [fst snd].
  assert (Hstep : world_of (step o w) = w).
  { destruct o as [info os|info|owner uninit e]; simpl in Ho |- *.
    - unfold bind. rewrite (start_run_invalid _ _ _ Ho). reflexivity.
    - contradiction.
    - apply WinEventProc_world. }
  rewrite Hstep. apply IH, Hrest.
Qed.

(** A function that is not registered and that no later start installs is
    never invoked. *)
Lemma run_never_invoked (h : JsFunctionId) (ops : list Op) :
  forall w : World,
    registered w <> Some h ->
    Forall (fun o => installs o <> Some h) ops ->
    ~ In h (invoked (trace_of (run ops w))).
Proof.
  induction ops as [|o ops IH]; intros w Hreg Hops.
  - simpl. tauto.
  - inversion Hops as [|? ? Ho Hrest]; subst.
    rewrite run_cons. unfold trace_of at 1. simpl.
    rewrite invoked_app, in_app_iff. intros [Hin|Hin].
    + apply Hreg. eapply step_invoked; eauto.
    + revert Hin. apply IH; [|assumption].
      intros Hr. apply step_registered in Hr as [Hr|Hr]; contradiction.
Qed.

(** ** The invariant *)

Lemma start_world_consistent (n : Z) (cb : JsFunctionId) (os : HookAnswers)
    (links : list (DWORD * DWORD)) :
  consistent (start_world n cb os [] links).
Proof.
  unfold start_world. destruct (all_failed os) eqn:E.
  - left. split; reflexivity.
  - right. exists (installed n cb os), cb. repeat split.
    destruct os as [a1 a2 a3 a4 e]. unfold all_failed, installed, live_handles in *.
    simpl in *. destruct (nonnull a1), (nonnull a2), (nonnull a3), (nonnull a4);
      simpl in *; congruence.
Qed.

Lemma consistent_inv (w : World) :
  consistent w ->
  w = mkWorld None [] (input_links w) \/
  exists s, w = mkWorld (Some s) (live_handles s) (input_links w).
Proof.
  destruct w as [st table links]. unfold consistent, Stopped, Live. simpl.
  intros [[-> ->]|(s & f & -> & _ & -> & _)]; eauto.
Qed.

Lemma step_consistent (o : Op) (w : World) :
  consistent w -> consistent (world_of (step o w)).
Proof.
  intros Hw. destruct o as [info os|info|owner uninit e]; simpl.
  - destruct (installs (OpStart info os)) as [cb|] eqn:E.
    + destruct (installs_inv _ _ _ E) as (n & rest & ->).
      destruct (consistent_inv w Hw) as [->|(s & ->)]; unfold bind;
        autorewrite with hook_run; apply start_world_consistent.
    + unfold bind. rewrite (start_run_invalid _ _ _ E). exact Hw.
  - destruct (consistent_inv w Hw) as [->|(s & ->)]; unfold bind;
      autorewrite with hook_run; left; split; reflexivity.
  - rewrite WinEventProc_world. exact Hw.
Qed.

Lemma run_consistent (ops : list Op) :
  forall w : World, consistent w -> consistent (world_of (run ops w)).
Proof.
  induction ops as [|o ops IH]; intros w Hw.
  - exact Hw.
  - rewrite run_cons. unfold world_of at 1. simpl. apply IH, step_consistent, Hw.
Qed.

Lemma initial_world_consistent : consistent initial_world.
Proof. left. split; reflexivity. Qed.

Lemma all_failed_iff (os : HookAnswers) :
  all_failed os = true <->
  answer1 os = NULL /\ answer2 os = NULL /\ answer3 os = NULL /\ answer4 os = NULL.
Proof.
  unfold all_failed, nonnull.
  rewrite !andb_true_iff, !negb_true_iff, !negb_false_iff, !Z.eqb_eq. tauto.
Qed.

Lemma start_world_stopped (n : Z) (cb : JsFunctionId) (os : HookAnswers)
    (links : list (DWORD * DWORD)) :
  all_failed os = true -> Stopped (start_world n cb os [] links).
Proof. intros H. unfold start_world. rewrite H. split; reflexivity. Qed.

Lemma start_world_live (n : Z) (cb : JsFunctionId) (os : HookAnswers)
    (links : list (DWORD * DWORD)) :
  all_failed os = false ->
  Live (start_world n cb os [] links) /\ registered (start_world n cb os [] links) = Some cb.
Proof.
  intros H. pose proof (start_world_consistent n cb os links) as Hc.
  rewrite registered_start_world, H. split; [|reflexivity].
  destruct Hc as [[Hs _]|Hl]; [|exact Hl].
  unfold start_world in Hs. rewrite H in Hs. discriminate Hs.
Qed.

(** A start that passes the argument check, run on a consistent world. *)
Lemma start_run_consistent (n : Z) (cb : JsFunctionId) (rest : list JsValue)
    (os : HookAnswers) (w : World) :
  consistent w ->
  result_of (StartWinEventHook (JsNumber n :: JsFunction cb :: rest) os w) = start_outcome os /\
  world_of (StartWinEventHook (JsNumber n :: JsFunction cb :: rest) os w) =
    start_world n cb os [] (input_links w).
Proof.
  intros Hw. destruct (consistent_inv w Hw) as [->|(s & ->)].
  - rewrite start_run_stopped. split; reflexivity.
  - rewrite start_run_live, unhook_all_self. split; reflexivity.
Qed.

(** ** The claims on the subscription core *)

(** C1: after [start(p1, h1); start(p2, h2)], from any world, the function
    [h1] is never invoked again: not by any later notification, stop or
    start (as long as no later start installs [h1] anew), and the record
    does not hold it.  The second start first releases every live hook
    handle of the state the first start left and releases its callback
    reference, and only then takes the reference to [h2] and registers the
    new hooks; its trace is exactly that. *)
Theorem C1_replaced_handler_never_invoked
    (w : World) (n1 : Z) (h1 : JsFunctionId) (rest1 : list JsValue) (os1 : HookAnswers)
    (n2 : Z) (h2 : JsFunctionId) (rest2 : list JsValue) (os2 : HookAnswers)
    (ops : list Op) :
  h1 <> h2 ->
  Forall (fun o => installs o <> Some h1) ops ->
  let first := StartWinEventHook (JsNumber n1 :: JsFunction h1 :: rest1) os1 w in
  let second :=
    StartWinEventHook (JsNumber n2 :: JsFunction h2 :: rest2) os2 (world_of first) in
  ~ In h1 (invoked (trace_of (run ops (world_of second)))) /\
  registered (world_of second) <> Some h1 /\
  trace_of second =
    (if all_failed os1 then []
     else map CallUnhookWinEvent (live_handles (installed n1 h1 os1))
          ++ [CallReset (Some h1)])
    ++ CallPersistent h2 :: registration_calls os2
    ++ (if all_failed os2
        then [CallGetLastError (last_error os2); CallReset (Some h2)] else []).
Proof.
  intros Hne Hops first second.
  assert (Hreg : registered (world_of second) <> Some h1).
  { subst second. destruct (world_of first) as [[s|] table links];
      [rewrite start_run_live | rewrite start_run_stopped];
      unfold world_of; cbn [fst snd]; rewrite registered_start_world;
      destruct (all_failed os2); congruence. }
  split; [|split].
  - apply run_never_invoked; assumption.
  - exact Hreg.
  - subst second first. destruct w as [[s|] table links];
      [rewrite start_run_live | rewrite start_run_stopped];
      unfold world_of; cbn [fst snd]; unfold start_world;
      destruct (all_failed os1);
      [rewrite start_run_stopped | rewrite start_run_live
      |rewrite start_run_stopped | rewrite start_run_live]; reflexivity.
Qed.

(** C2: whatever sequence of starts, stops and notifications has run since
    the addon was loaded, the subscription record is either stopped (no
    state and no registered hook) or live (a state that holds a callback,
    whose hook handles that are not [NULL] are exactly the registered hooks,
    and at least one of them is); so a callback is held if and only if a
    hook is registered. *)
Theorem C2_stopped_or_live (ops : list Op) :
  let w := world_of (run ops initial_world) in
  (Stopped w \/ Live w) /\
  (registered w = None <-> win_event_hooks w = []).
Proof.
  intros w.
  assert (Hc : consistent w) by apply run_consistent, initial_world_consistent.
  split; [exact Hc|].
  unfold registered.
  destruct Hc as [[Hs Ht]|(s & f & Hs & Hf & Ht & Hne)]; rewrite Hs.
  - tauto.
  - rewrite Hf. split; intros H; [discriminate H | congruence].
Qed.

(** C3: a start with a number and a function as its arguments, on a
    consistent world, throws the operating system error exactly when all
    four registrations failed, and then the core is stopped; when at least
    one registration succeeded it returns without an error and the core is
    live with the new callback. *)
Theorem C3_start_fails_iff_all_registrations_fail
    (w : World) (n : Z) (cb : JsFunctionId) (rest : list JsValue) (os : HookAnswers) :
  consistent w ->
  let r := StartWinEventHook (JsNumber n :: JsFunction cb :: rest) os w in
  let every_registration_failed :=
    answer1 os = NULL /\ answer2 os = NULL /\ answer3 os = NULL /\ answer4 os = NULL in
  ((exists e, result_of r = Throw e) <-> every_registration_failed) /\
  (every_registration_failed ->
     result_of r =
       Throw (Error ("Failed to set WinEvent hooks. Error code: "
                     ++ to_string (last_error os))) /\
     Stopped (world_of r)) /\
  (~ every_registration_failed ->
     result_of r = Return JsUndefined /\
     Live (world_of r) /\ registered (world_of r) = Some cb).
Proof.
  intros Hw r failed.
  destruct (start_run_consistent n cb rest os w Hw) as [Hres Hworld].
  fold r in Hres, Hworld. rewrite Hres, Hworld. subst failed.
  rewrite <- all_failed_iff. unfold start_outcome.
  destruct (all_failed os) eqn:E.
  - split; [|split].
    + split; [reflexivity | eauto].
    + intros _. split; [reflexivity|]. apply start_world_stopped, E.
    + congruence.
  - split; [|split].
    + split; [intros [e He]; discriminate He | congruence].
    + congruence.
    + intros _. split; [reflexivity|]. apply start_world_live, E.
Qed.

(** C8: a stop on a consistent world never throws and leaves the core
    stopped, with no hook registered and no state; on a live world it
    releases each live hook handle and the callback reference.  A second
    stop right after it, and a stop before any start, change nothing, call
    nothing and do not throw either. *)
Theorem C8_stop_idempotent (w : World) (info info' : list JsValue) :
  consistent w ->
  let r := StopWinEventHook info w in
  result_of r = Return JsUndefined /\
  Stopped (world_of r) /\ registered (world_of r) = None /\
  (forall s, g_hookState w = Some s ->
     trace_of r = map CallUnhookWinEvent (live_handles s) ++ [CallReset (jsCallback s)]) /\
  StopWinEventHook info' (world_of r) = (Return JsUndefined, world_of r, []) /\
  StopWinEventHook info initial_world = (Return JsUndefined, initial_world, []).
Proof.
  intros Hw r. subst r.
  destruct (consistent_inv w Hw) as [->|(s & ->)].
  - rewrite stop_run_stopped. unfold result_of, world_of, trace_of; cbn [fst snd].
    repeat split; try reflexivity. intros s Hs. discriminate Hs.
  - rewrite stop_run_live, unhook_all_self.
    unfold result_of, world_of, trace_of; cbn [fst snd].
    repeat split; try reflexivity. intros s' Hs. injection Hs as <-. reflexivity.
Qed.

(** ** The claims on the dispatch callback *)

Lemma event_type_kinds (ev : DWORD) (ty : string) :
  event_type ev = Some ty -> In ty event_kinds.
Proof.
  unfold event_type, event_kinds.
  repeat match goal with
         | |- context [if ?b then _ else _] => destruct b
         end; intros H; inversion H; subst; simpl; tauto.
Qed.

Lemma event_type_unknown (ev : DWORD) :
  ~ In ev known_events -> event_type ev = None.
Proof.
  unfold known_events, event_type. simpl. intros H.
  repeat match goal with
         | |- context [?a =? ?b] =>
             destruct (Z.eqb_spec a b) as [Heq|_]; [exfalso; apply H; rewrite Heq; tauto|]
         end.
  reflexivity.
Qed.

(** The trace of the dispatch callback on a world with a state. *)
Lemma WinEventProc_trace (owner : Desktop) (uninit : DWORD) (e : WinEvent)
    (s : HookState) (table : list HWINEVENTHOOK) (links : list (DWORD * DWORD)) :
  trace_of (WinEventProc owner uninit e (mkWorld (Some s) table links)) =
    if negb (idObject e =? OBJID_WINDOW) || negb (idChild e =? CHILDID_SELF) then []
    else if event e =? EVENT_SYSTEM_FOREGROUND then
      match jsCallback s with
      | Some f =>
          [CallJs f [("type"%string, JsString "foreground");
                     ("hwnd"%string, JsBigInt (hwnd e));
                     ("pid"%string,
                      JsNumber (GetWindowThreadProcessId owner (hwnd e) uninit))]]
      | None => []
      end
    else if negb (GetWindowThreadProcessId owner (hwnd e) uninit =? targetPid s) then []
    else
      match event_type (event e), jsCallback s with
      | Some ty, Some f =>
          [CallJs f [("type"%string, JsString ty); ("hwnd"%string, JsBigInt (hwnd e))]]
      | _, _ => []
      end.
Proof.
  unfold WinEventProc, bind, get_hookState, call_jsCallback, emit, ret, trace_of, obj_set.
  cbn [g_hookState fst snd app].
  repeat match goal with
         | |- context [if ?b then _ else _] => destruct b; cbn [fst snd app]
         | |- context [match ?x with Some _ => _ | None => _ end] =>
             destruct x; cbn [fst snd app]
         end; reflexivity.
Qed.

(** The dispatch of a notification about a window that exists.  After a
    start that succeeded, and any number of further notifications and of
    starts rejected for their arguments, a notification in the window scope
    about an existing window owned by process [p] is handled as follows.
    A foreground change is delivered to the callback of
    that start with the window handle and [p], whatever [p] and the target
    pid are.  Any other event is dropped when [p] differs from the target pid
    of that start, is delivered only when [p] equals it, and is then
    delivered with its kind and the window handle when the raw code is a
    known one. *)
Lemma WinEventProc_existing_window
    (w : World) (n : Z) (cb : JsFunctionId) (rest : list JsValue) (os : HookAnswers)
    (ops : list Op) (owner : Desktop) (uninit : DWORD) (e : WinEvent) (p : DWORD) :
  let r := StartWinEventHook (JsNumber n :: JsFunction cb :: rest) os w in
  result_of r = Return JsUndefined ->
  Forall quiet ops ->
  idObject e = OBJID_WINDOW ->
  idChild e = CHILDID_SELF ->
  owner (hwnd e) = Some p ->
  let t := trace_of (WinEventProc owner uninit e (world_of (run ops (world_of r)))) in
  (event e = EVENT_SYSTEM_FOREGROUND ->
     t = [CallJs cb [("type"%string, JsString "foreground");
                     ("hwnd"%string, JsBigInt (hwnd e));
                     ("pid"%string, JsNumber p)]]) /\
  (event e <> EVENT_SYSTEM_FOREGROUND -> p <> Uint32Value n -> t = []) /\
  (event e <> EVENT_SYSTEM_FOREGROUND -> t <> [] -> p = Uint32Value n) /\
  (event e <> EVENT_SYSTEM_FOREGROUND -> p = Uint32Value n ->
     forall ty, event_type (event e) = Some ty ->
       t = [CallJs cb [("type"%string, JsString ty); ("hwnd"%string, JsBigInt (hwnd e))]]).
Proof.
  intros r Hok Hquiet HidO HidC Hown t.
  assert (Hw : exists table links,
             world_of r = mkWorld (Some (installed n cb os)) table links).
  { subst r. revert Hok. destruct w as [[s|] table links];
      [rewrite start_run_live | rewrite start_run_stopped];
      unfold result_of, world_of; cbn [fst snd]; unfold start_outcome, start_world;
      destruct (all_failed os); intros H; try discriminate H; eauto. }
  destruct Hw as (table & links & Hw). subst t.
  rewrite (run_quiet ops _ Hquiet), Hw, WinEventProc_trace.
  unfold GetWindowThreadProcessId. rewrite Hown, HidO, HidC.
  cbn [installed jsCallback targetPid]. rewrite !Z.eqb_refl. cbn [negb orb].
  destruct (Z.eqb_spec (event e) EVENT_SYSTEM_FOREGROUND) as [Hfg|Hfg];
    destruct (Z.eqb_spec p (Uint32Value n)) as [Hp|Hp]; cbn [negb];
    repeat split; intros; try contradiction; try reflexivity; try congruence.
  match goal with H : event_type _ = Some _ |- _ => rewrite H end. reflexivity.
Qed.

(** C4: the code at the input on which it departs from the claim.  After
    a start for process 4242 that succeeded, the destruction of window 0x1A0
    is notified when the window is gone: no process owns it,
    [GetWindowThreadProcessId] fills nothing in, and the callback compares
    what its local [windowPid] held before.  With 4242 left there the event
    is delivered, although no owning pid equals the target pid.  In the same
    way a foreground change to a window that is gone is delivered with the
    left-over value, here 31337, as its [pid], which is the process id of no
    owner. *)
Theorem C4_event_of_window_without_owner_delivered :
  let started :=
    StartWinEventHook [JsNumber 4242; JsFunction 1%nat] partial_answers initial_world in
  let gone : Desktop := fun _ => None in
  result_of started = Return JsUndefined /\
  gone 0x1A0 = None /\
  trace_of (WinEventProc gone 4242
              (mkWinEvent EVENT_OBJECT_DESTROY 0x1A0 OBJID_WINDOW CHILDID_SELF)
              (world_of started))
  = [CallJs 1%nat [("type"%string, JsString "destroy");
                   ("hwnd"%string, JsBigInt 0x1A0)]] /\
  trace_of (WinEventProc gone 31337
              (mkWinEvent EVENT_SYSTEM_FOREGROUND 0x1A0 OBJID_WINDOW CHILDID_SELF)
              (world_of started))
  = [CallJs 1%nat [("type"%string, JsString "foreground");
                   ("hwnd"%string, JsBigInt 0x1A0);
                   ("pid"%string, JsNumber 31337)]].
Proof.
  cbv zeta. repeat split; vm_compute; reflexivity.
Qed.

(** C5: whatever the world and the notification, an event object that the
    dispatch callback hands to the callback carries a [type] that is one of
    the seven kinds; a notification whose raw code is none of the seven
    known codes is dropped without a call; and on a world that holds a
    callback each of the seven kinds is delivered for the notification with
    its raw code. *)
Theorem C5_delivered_type_is_one_of_seven
    (w : World) (owner : Desktop) (uninit : DWORD) (e : WinEvent) :
  (forall f arg,
     In (CallJs f arg) (trace_of (WinEventProc owner uninit e w)) ->
     exists ty, obj_get "type" arg = Some (JsString ty) /\ In ty event_kinds) /\
  (~ In (event e) known_events -> trace_of (WinEventProc owner uninit e w) = []) /\
  (forall s f kind h,
     g_hookState w = Some s -> jsCallback s = Some f -> In kind event_kinds ->
     let e' := mkWinEvent (raw_event kind) h OBJID_WINDOW CHILDID_SELF in
     exists arg,
       trace_of (WinEventProc (fun _ => Some (targetPid s)) uninit e' w) = [CallJs f arg] /\
       obj_get "type" arg = Some (JsString kind)).
Proof.
  split; [|split].
  - intros f arg. destruct w as [[s|] table links]; [|simpl; tauto].
    rewrite WinEventProc_trace.
    destruct (negb (idObject e =? OBJID_WINDOW) || negb (idChild e =? CHILDID_SELF));
      [simpl; tauto|].
    destruct (event e =? EVENT_SYSTEM_FOREGROUND).
    + destruct (jsCallback s); [|simpl; tauto].
      intros [H|[]]. inversion H; subst. exists "foreground"%string.
      split; [reflexivity | simpl; tauto].
    + destruct (negb (GetWindowThreadProcessId owner (hwnd e) uninit =? targetPid s));
        [simpl; tauto|].
      destruct (event_type (event e)) as [ty|] eqn:Ety; [|simpl; tauto].
      destruct (jsCallback s); [|simpl; tauto].
      intros [H|[]]. inversion H; subst. exists ty.
      split; [reflexivity | eapply event_type_kinds; eauto].
  - intros Hunk. destruct w as [[s|] table links]; [|reflexivity].
    rewrite WinEventProc_trace, (event_type_unknown _ Hunk).
    destruct (Z.eqb_spec (event e) EVENT_SYSTEM_FOREGROUND) as [Hfg|_].
    + exfalso. apply Hunk. rewrite Hfg. simpl. tauto.
    + repeat match goal with
             | |- context [if ?b then _ else _] => destruct b
             end; reflexivity.
  - intros s f kind h Hs Hf Hkind e'. destruct w as [st table links].
    simpl in Hs. subst st e'. rewrite WinEventProc_trace.
    unfold GetWindowThreadProcessId. cbn [event hwnd idObject idChild].
    rewrite Hf, !Z.eqb_refl. cbn [negb orb].
    simpl in Hkind.
    repeat (destruct Hkind as [<-|Hkind]; [eexists; split; reflexivity|]).
    contradiction.
Qed.

(** ** The window enumeration *)

Lemma wrap_i32_small (z : Z) : - 2 ^ 31 <= z < 2 ^ 31 -> wrap_i32 z = z.
Proof. intros H. unfold wrap_i32. rewrite Z.mod_small; lia. Qed.

Lemma Uint32Value_small (z : Z) : 0 <= z < 2 ^ 32 -> Uint32Value z = z.
Proof. intros H. unfold Uint32Value, wrap_u32. apply Z.mod_small, H. Qed.

Lemma GetWindowArea_exact (w : Window) : rect_fits w -> GetWindowArea w = outer_area w.
Proof.
  unfold rect_fits, GetWindowArea, outer_area, rect_area.
  destruct (GetWindowRect w) as [r|]; [|reflexivity].
  intros (Hw & Hh & Ha). rewrite (wrap_i32_small _ Hw), (wrap_i32_small _ Hh).
  apply wrap_i32_small, Ha.
Qed.

Lemma GetWindowTextW_zero (w : Window) :
  (GetWindowTextW w =? 0) = String.eqb (window_title w) "".
Proof.
  unfold GetWindowTextW. destruct (window_title w) as [|c t]; [reflexivity|].
  cbn [String.length String.eqb]. apply Z.eqb_neq. lia.
Qed.

(** One call of the callback: the best candidate is replaced exactly when
    the window qualifies and is strictly larger. *)
Lemma EnumProc_run (w : Window) (ed : EnumData) :
  EnumProc w ed =
    (true,
     if qualifies (pid ed) w && (GetWindowArea w >? bestArea ed)
     then mkEnumData (pid ed) (handle w) (GetWindowArea w)
     else ed).
Proof.
  unfold EnumProc, qualifies, IsToolWindow, GetWindowArea.
  rewrite GetWindowTextW_zero.
  destruct (IsWindowVisible w); cbn [negb andb]; [|reflexivity].
  destruct (window_pid w =? pid ed); cbn [negb andb]; [|reflexivity].
  destruct (Z.land (window_exStyle w) WS_EX_TOOLWINDOW =? 0); cbn [negb andb]; [|reflexivity].
  destruct (String.eqb (window_title w) ""); cbn [negb andb]; [reflexivity|].
  destruct (_ >? _); reflexivity.
Qed.

Lemma EnumWindows_cons (w : Window) (l : list Window) (ed : EnumData) :
  EnumWindows EnumProc (w :: l) ed = EnumWindows EnumProc l (snd (EnumProc w ed)).
Proof. cbn [EnumWindows]. rewrite EnumProc_run. reflexivity. Qed.

Lemma EnumWindows_app (l1 l2 : list Window) :
  forall ed, EnumWindows EnumProc (l1 ++ l2) ed =
             EnumWindows EnumProc l2 (EnumWindows EnumProc l1 ed).
Proof.
  induction l1 as [|w l1 IH]; intros ed; [reflexivity|].
  rewrite <- app_comm_cons, !EnumWindows_cons. apply IH.
Qed.

(** Windows that do not beat the best candidate leave it in place. *)
Lemma EnumWindows_no_better (l : list Window) :
  forall ed,
    (forall x, In x l -> qualifies (pid ed) x = true -> GetWindowArea x <= bestArea ed) ->
    EnumWindows EnumProc l ed = ed.
Proof.
  induction l as [|w l IH]; intros ed H; [reflexivity|].
  rewrite EnumWindows_cons, EnumProc_run. cbn [snd].
  destruct (qualifies (pid ed) w) eqn:Q; cbn [andb].
  - assert (Hle : GetWindowArea w <= bestArea ed) by (apply H; [left; reflexivity | exact Q]).
    destruct (Z.gtb_spec (GetWindowArea w) (bestArea ed)); [lia|].
    apply IH. intros x Hx. apply H. right. exact Hx.
  - apply IH. intros x Hx. apply H. right. exact Hx.
Qed.

(** Windows below a bound keep the best area below that bound. *)
Lemma EnumWindows_below (a : Z) (l : list Window) :
  forall ed,
    bestArea ed < a ->
    (forall x, In x l -> qualifies (pid ed) x = true -> GetWindowArea x < a) ->
    bestArea (EnumWindows EnumProc l ed) < a /\
    pid (EnumWindows EnumProc l ed) = pid ed.
Proof.
  induction l as [|w l IH]; intros ed Hb H; [auto|].
  rewrite EnumWindows_cons, EnumProc_run. cbn [snd].
  destruct (qualifies (pid ed) w && (GetWindowArea w >? bestArea ed)) eqn:C.
  - apply andb_true_iff in C as [Q _].
    destruct (IH (mkEnumData (pid ed) (handle w) (GetWindowArea w))) as [H1 H2].
    + cbn [bestArea]. apply H; [left; reflexivity | exact Q].
    + cbn [pid]. intros x Hx. apply H. right. exact Hx.
    + split; [exact H1 | exact H2].
  - apply IH; [exact Hb|]. intros x Hx. apply H. right. exact Hx.
Qed.

(** The best candidate after an enumeration is the one before it, or a
    qualifying window of the enumeration that is strictly larger. *)
Lemma EnumWindows_found (l : list Window) :
  forall ed,
    EnumWindows EnumProc l ed = ed \/
    exists w,
      In w l /\ qualifies (pid ed) w = true /\
      bestHwnd (EnumWindows EnumProc l ed) = handle w /\
      bestArea ed < GetWindowArea w.
Proof.
  induction l as [|w l IH]; intros ed; [left; reflexivity|].
  rewrite EnumWindows_cons, EnumProc_run. cbn [snd].
  destruct (qualifies (pid ed) w && (GetWindowArea w >? bestArea ed)) eqn:C.
  - apply andb_true_iff in C as [Q G].
    assert (Hgt : bestArea ed < GetWindowArea w)
      by (destruct (Z.gtb_spec (GetWindowArea w) (bestArea ed)); [lia | discriminate G]).
    right. destruct (IH (mkEnumData (pid ed) (handle w) (GetWindowArea w)))
      as [->|(x & Hx & Qx & Hh & Ha)].
    + exists w. repeat split; auto. left. reflexivity.
    + exists x. cbn [pid bestArea] in *. repeat split; auto; [right; exact Hx | lia].
  - destruct (IH ed) as [->|(x & Hx & Qx & Hh & Ha)]; [left; reflexivity|].
    right. exists x. repeat split; auto. right. exact Hx.
Qed.

Lemma NoDup_map_injective {A B : Type} (f : A -> B) (l : list A) :
  NoDup (map f l) -> forall x y, In x l -> In y l -> f x = f y -> x = y.
Proof.
  induction l as [|a l IH]; intros Hnd x y Hx Hy Hf; [destruct Hx|].
  cbn [map] in Hnd. inversion Hnd as [|? ? Hnotin Hnd']; subst.
  destruct Hx as [->|Hx], Hy as [->|Hy].
  - reflexivity.
  - exfalso. apply Hnotin. rewrite Hf. apply in_map, Hy.
  - exfalso. apply Hnotin. rewrite <- Hf. apply in_map, Hx.
  - apply IH; assumption.
Qed.

(** The result of [FindWindowByPid] in terms of the enumeration. *)
Lemma FindWindowByPid_run (p : Z) (rest : list JsValue) (desktop : list Window) :
  0 <= p < 2 ^ 32 ->
  FindWindowByPid (JsNumber p :: rest) desktop =
    let data := EnumWindows EnumProc desktop (mkEnumData p NULL 0) in
    if nonnull (bestHwnd data) then Return (JsBigInt (bestHwnd data)) else Return JsNull.
Proof. intros Hp. unfold FindWindowByPid. rewrite (Uint32Value_small _ Hp). reflexivity. Qed.

(** ** The claims on the window queries *)

(** C6, amended: for a pid in the [DWORD] range and an enumeration whose
    handles are not [NULL], [findWindowByPid] returns the handle of the
    visible, titled, non-tool window of that pid whose area is strictly
    positive and maximal, the first such window in enumeration order among
    equals; it returns [null] when no qualifying window has a strictly
    positive area.  The area is width times height in 32-bit arithmetic, zero
    when the rectangle query fails; it is the exact product whenever the
    arithmetic fits in 32 bits. *)
Theorem C6_largest_positive_area_window
    (p : Z) (rest : list JsValue) (desktop : list Window) :
  0 <= p < 2 ^ 32 ->
  Forall (fun w => handle w <> NULL) desktop ->
  let r := FindWindowByPid (JsNumber p :: rest) desktop in
  ((forall w, In w desktop -> qualifies p w = true -> GetWindowArea w <= 0) ->
     r = Return JsNull) /\
  (forall before w after,
     desktop = before ++ w :: after ->
     qualifies p w = true ->
     0 < GetWindowArea w ->
     (forall x, In x before -> qualifies p x = true -> GetWindowArea x < GetWindowArea w) ->
     (forall x, In x after -> qualifies p x = true -> GetWindowArea x <= GetWindowArea w) ->
     r = Return (JsBigInt (handle w))) /\
  (forall w, In w desktop -> rect_fits w -> GetWindowArea w = outer_area w).
Proof.
  intros Hp Hnn r. subst r. rewrite (FindWindowByPid_run p rest desktop Hp). cbv zeta.
  split; [|split].
  - intros Hall. rewrite EnumWindows_no_better; [reflexivity|exact Hall].
  - intros before w after -> Q Hpos Hbefore Hafter.
    rewrite EnumWindows_app, EnumWindows_cons, EnumProc_run. cbn [snd].
    destruct (EnumWindows_below (GetWindowArea w) before (mkEnumData p NULL 0))
      as [Hb Hpid]; [exact Hpos | exact Hbefore |].
    cbn [pid] in Hpid. rewrite Hpid, Q. cbn [andb].
    destruct (Z.gtb_spec (GetWindowArea w)
                (bestArea (EnumWindows EnumProc before (mkEnumData p NULL 0)))); [|lia].
    rewrite EnumWindows_no_better.
    + cbn [bestHwnd]. rewrite Forall_forall in Hnn.
      assert (Hw : handle w <> NULL) by (apply Hnn, in_or_app; right; left; reflexivity).
      unfold nonnull. apply Z.eqb_neq in Hw. rewrite Hw. reflexivity.
    + cbn [pid bestArea]. exact Hafter.
  - intros w _ Hfit. apply GetWindowArea_exact, Hfit.
Qed.

(** C10: for a pid in the [DWORD] range, a handle that [findWindowByPid]
    returns belongs to a qualifying window of the enumeration whose computed
    area is strictly positive; when every qualifying window has area zero
    (a failed rectangle query counts as zero) the call returns [null]; and
    when the enumeration lists no handle twice, a qualifying window of area
    zero is never the one returned. *)
Theorem C10_zero_area_window_never_returned
    (p : Z) (rest : list JsValue) (desktop : list Window) :
  0 <= p < 2 ^ 32 ->
  let r := FindWindowByPid (JsNumber p :: rest) desktop in
  (forall h, r = Return (JsBigInt h) ->
     exists w, In w desktop /\ handle w = h /\ qualifies p w = true /\ 0 < GetWindowArea w) /\
  ((forall w, In w desktop -> qualifies p w = true -> GetWindowArea w = 0) ->
     r = Return JsNull) /\
  (NoDup (map handle desktop) ->
     forall w, In w desktop -> qualifies p w = true -> GetWindowArea w = 0 ->
       r <> Return (JsBigInt (handle w))) /\
  (forall w, GetWindowRect w = None -> GetWindowArea w = 0).
Proof.
  intros Hp r.
  assert (Hfound : forall h, r = Return (JsBigInt h) ->
            exists w, In w desktop /\ handle w = h /\ qualifies p w = true /\
                      0 < GetWindowArea w).
  { intros h. subst r. rewrite (FindWindowByPid_run p rest desktop Hp). cbv zeta.
    destruct (EnumWindows_found desktop (mkEnumData p NULL 0))
      as [->|(w & Hin & Q & Hh & Ha)].
    - cbn. intros H. discriminate H.
    - rewrite Hh. destruct (nonnull (handle w)); intros H; [|discriminate H].
      injection H as <-. exists w. cbn [pid bestArea] in *. auto. }
  split; [exact Hfound|]. split; [|split].
  - intros Hall. subst r. rewrite (FindWindowByPid_run p rest desktop Hp). cbv zeta.
    rewrite EnumWindows_no_better; [reflexivity|].
    cbn [pid bestArea]. intros x Hx Q. rewrite (Hall x Hx Q). lia.
  - intros Hnd w Hin Q Hzero Hr.
    destruct (Hfound _ Hr) as (w' & Hin' & Hh & _ & Hpos).
    assert (w' = w) by (eapply NoDup_map_injective; eauto).
    subst w'. lia.
  - intros w Hrect. unfold GetWindowArea. rewrite Hrect. reflexivity.
Qed.

(** C7: [getDpiScaleForHwnd] on a handle.  With [user32] at hand, the
    per-window query [GetDpiForWindow] is looked up first and, when it is
    there, is the only query made: the result is its answer over 96.  When
    the lookup finds nothing, the device context of the window is asked for
    [LOGPIXELSX] instead and the result is that answer over 96.  When not even
    the [user32] module is at hand, so that neither query can be reached
    through it, no query is made and the result is exactly 1.  The world is
    left as it was. *)
Theorem C7_dpi_scale_fallback_chain
    (z : Z) (rest : list JsValue) (os : DpiAnswers) (w : World) :
  let hwnd := Int64Value z in
  let r := GetDpiScaleForHwnd (JsBigInt z :: rest) os w in
  (user32 os <> NULL ->
     forall f, GetDpiForWindow os = Some f ->
       result_of r = Return (JsDouble (f hwnd # 96)) /\
       trace_of r = [CallGetProcAddress "GetDpiForWindow" true;
                     CallGetDpiForWindow hwnd (f hwnd)]) /\
  (user32 os <> NULL ->
     GetDpiForWindow os = None ->
     let hdc := GetDC_answer os hwnd in
     let dpi := GetDeviceCaps_answer os hdc LOGPIXELSX in
     result_of r = Return (JsDouble (dpi # 96)) /\
     trace_of r = [CallGetProcAddress "GetDpiForWindow" false;
                   CallGetDC hwnd hdc;
                   CallGetDeviceCaps hdc LOGPIXELSX dpi;
                   CallReleaseDC hwnd hdc]) /\
  (user32 os = NULL ->
     result_of r = Return (JsDouble (1 # 1)) /\ trace_of r = []) /\
  world_of r = w.
Proof.
  intros hwnd r. subst r hwnd.
  unfold GetDpiScaleForHwnd, nonnull.
  destruct (Z.eqb_spec (user32 os) NULL) as [Hu|Hu]; cbn [negb].
  - repeat split; intros; try contradiction; reflexivity.
  - unfold bind, GetProcAddress, GetDC, GetDeviceCaps, emit, ret.
    destruct (GetDpiForWindow os) as [g|]; cbn;
      repeat split; intros; try contradiction; try discriminate; try reflexivity;
      match goal with H : Some _ = Some _ |- _ => injection H as <- end; reflexivity.
Qed.

Lemma link_eqb_refl (l : DWORD * DWORD) : link_eqb l l = true.
Proof. unfold link_eqb. rewrite !Z.eqb_refl. reflexivity. Qed.

(** C9: [forceActivateWindow] on a handle that is no window returns [false]
    and makes no call at all, so no thread input is linked.  On every path,
    whatever the arguments and the answers of the operating system, the
    world and with it the table of thread-input links is the same after the
    call as before, and the [AttachThreadInput] calls of the trace are none,
    or one attach that failed, or one attach that succeeded followed by the
    detach of the same pair of threads. *)
Theorem C9_attach_always_paired_with_detach
    (info : list JsValue) (os : ActivateAnswers) (w : World) :
  let r := ForceActivateWindow info os w in
  (forall z rest,
     info = JsBigInt z :: rest -> IsWindow os (Int64Value z) = false ->
     r = (Return (JsBoolean false), w, [])) /\
  world_of r = w /\
  input_links (world_of r) = input_links w /\
  (attach_calls (trace_of r) = [] \/
   (exists a b, attach_calls (trace_of r) = [(a, b, true, false)]) \/
   (exists a b, attach_calls (trace_of r) = [(a, b, true, true); (a, b, false, true)])).
Proof.
  intros r. subst r. split.
  { intros z rest -> Hw. unfold ForceActivateWindow. rewrite Hw. reflexivity. }
  assert (H : world_of (ForceActivateWindow info os w) = w /\
              (attach_calls (trace_of (ForceActivateWindow info os w)) = [] \/
               (exists a b, attach_calls (trace_of (ForceActivateWindow info os w))
                            = [(a, b, true, false)]) \/
               (exists a b, attach_calls (trace_of (ForceActivateWindow info os w))
                            = [(a, b, true, true); (a, b, false, true)]))).
  { destruct w as [st table links].
    unfold ForceActivateWindow.
    destruct info as [|[] rest]; try (split; [reflexivity | left; reflexivity]).
    destruct (IsWindow os (Int64Value z)); cbn [negb];
      [|split; [reflexivity | left; reflexivity]].
    unfold bind, ret, emit, when, AttachThreadInput, world_of, trace_of.
    destruct (negb _ && negb _); cbn [input_links g_hookState win_event_hooks].
    - destruct (attach_answer os); destruct (IsIconic os (Int64Value z));
        cbn; rewrite ?link_eqb_refl; cbn;
        (split; [reflexivity|]); eauto.
    - destruct (IsIconic os (Int64Value z)); cbn; (split; [reflexivity|]); eauto. }
  destruct H as [Hw Ht]. rewrite Hw. auto.
Qed.

(** ** The claims at sample inputs *)

(** Two starts with different callbacks from the initial world: the
    notifications that follow reach the second callback twice and the first
    one never. *)
Lemma C1_witness :
  let first := StartWinEventHook [JsNumber 4242; JsFunction 1%nat] partial_answers
                 initial_world in
  let second := StartWinEventHook [JsNumber 4242; JsFunction 2%nat] single_answers
                  (world_of first) in
  ~ In 1%nat (invoked (trace_of (run sample_ops (world_of second)))) /\
  invoked (trace_of (run sample_ops (world_of second))) = [2%nat; 2%nat] /\
  trace_of second =
    [CallUnhookWinEvent 0x101; CallUnhookWinEvent 0x102; CallUnhookWinEvent 0x104;
     CallReset (Some 1%nat); CallPersistent 2%nat]
    ++ registration_calls single_answers.
Proof.
  split; [|split; reflexivity].
  apply (C1_replaced_handler_never_invoked initial_world
           4242 1%nat [] partial_answers 4242 2%nat [] single_answers sample_ops).
  - discriminate.
  - repeat constructor; discriminate.
Defined.

(** A start whose four registrations are refused, and a start that is
    granted the foreground hook alone. *)
Lemma C3_witness :
  (result_of (StartWinEventHook [JsNumber 4242; JsFunction 1%nat] refused_answers
                initial_world)
   = Throw (Error "Failed to set WinEvent hooks. Error code: 5") /\
   Stopped (world_of (StartWinEventHook [JsNumber 4242; JsFunction 1%nat] refused_answers
                        initial_world))) /\
  (result_of (StartWinEventHook [JsNumber 4242; JsFunction 1%nat] single_answers
                initial_world)
   = Return JsUndefined /\
   Live (world_of (StartWinEventHook [JsNumber 4242; JsFunction 1%nat] single_answers
                     initial_world)) /\
   registered (world_of (StartWinEventHook [JsNumber 4242; JsFunction 1%nat] single_answers
                           initial_world)) = Some 1%nat).
Proof.
  split.
  - apply (C3_start_fails_iff_all_registrations_fail initial_world 4242 1%nat []
             refused_answers).
    + left. split; reflexivity.
    + repeat split; reflexivity.
  - apply (C3_start_fails_iff_all_registrations_fail initial_world 4242 1%nat []
             single_answers).
    + left. split; reflexivity.
    + intros (_ & _ & _ & H). discriminate H.
Defined.

(** After a start for process 4242, a move of its window and a start
    rejected for its arguments, a foreground change to a window of process
    999 reaches the callback. *)
Lemma WinEventProc_existing_window_sample :
  trace_of (WinEventProc sample_desktop 0 foreground_event
              (world_of
                 (run [OpEvent sample_desktop 0 move_event;
                       OpStart [JsNumber 4242] partial_answers]
                    (world_of (StartWinEventHook [JsNumber 4242; JsFunction 1%nat]
                                 partial_answers initial_world)))))
  = [CallJs 1%nat [("type"%string, JsString "foreground");
                   ("hwnd"%string, JsBigInt 0x2B0);
                   ("pid"%string, JsNumber 999)]].
Proof.
  apply (WinEventProc_existing_window initial_world 4242 1%nat []
           partial_answers
           [OpEvent sample_desktop 0 move_event; OpStart [JsNumber 4242] partial_answers]
           sample_desktop 0 foreground_event 999);
    try reflexivity.
  repeat constructor.
Defined.

(** Two qualifying windows of areas 100 and 200: the second is returned. *)
Lemma C6_witness :
  FindWindowByPid [JsNumber 4242] [small_window; large_window]
  = Return (JsBigInt (handle large_window)).
Proof.
  apply (C6_largest_positive_area_window 4242 [] [small_window; large_window])
    with (before := [small_window]) (after := @nil Window).
  - lia.
  - repeat constructor; discriminate.
  - reflexivity.
  - reflexivity.
  - reflexivity.
  - intros x [<-|[]] _. reflexivity.
  - intros x [].
Defined.

(** The claim as stated fails: the only window of process 4242 is visible,
    titled and no tool window, so it is the qualifying window of maximum
    area, and yet [findWindowByPid] returns [null]. *)
Lemma C6_counterexample :
  qualifies 4242 flat_window = true /\
  findWindowByProcessId_spec 4242 [flat_window] = Some (handle flat_window) /\
  FindWindowByPid [JsNumber 4242] [flat_window] = Return JsNull.
Proof. repeat split; reflexivity. Qed.

(** A stop after a start, from the initial world. *)
Lemma C8_witness :
  result_of (StopWinEventHook []
               (world_of (run [OpStart [JsNumber 4242; JsFunction 1%nat] partial_answers]
                            initial_world)))
  = Return JsUndefined /\
  Stopped (world_of (StopWinEventHook []
                       (world_of (run [OpStart [JsNumber 4242; JsFunction 1%nat]
                                         partial_answers]
                                      initial_world)))).
Proof.
  assert (Hlive : consistent
                    (world_of (run [OpStart [JsNumber 4242; JsFunction 1%nat]
                                      partial_answers]
                                   initial_world))).
  { right. exists (installed 4242 1%nat partial_answers), 1%nat.
    repeat split; try reflexivity. discriminate. }
  pose proof (C8_stop_idempotent _ [] [] Hlive) as H.
  cbv zeta in H. destruct H as (H1 & H2 & _). split; [exact H1 | exact H2].
Defined.

(** Two qualifying windows, one of zero area and one whose rectangle
    cannot be read: nothing is returned. *)
Lemma C10_witness :
  FindWindowByPid [JsNumber 4242] [flat_window; unmeasured_window] = Return JsNull.
Proof.
  apply (C10_zero_area_window_never_returned 4242 []
           [flat_window; unmeasured_window]).
  - lia.
  - intros w [<-|[<-|[]]] _; reflexivity.
Defined.

(** After two starts, a failed start and a stop the core is stopped. *)
Lemma C2_witness :
  Stopped (world_of (run (OpStart [JsNumber 4242; JsFunction 1%nat] partial_answers
                            :: OpStart [JsNumber 4242; JsFunction 2%nat] single_answers
                            :: sample_ops) initial_world)) \/
  Live (world_of (run (OpStart [JsNumber 4242; JsFunction 1%nat] partial_answers
                         :: OpStart [JsNumber 4242; JsFunction 2%nat] single_answers
                         :: sample_ops) initial_world)).
Proof.
  apply (C2_stopped_or_live
           (OpStart [JsNumber 4242; JsFunction 1%nat] partial_answers
              :: OpStart [JsNumber 4242; JsFunction 2%nat] single_answers
              :: sample_ops)).
Defined.

(** After a start, the destruction of a window of the target process is
    delivered with the type [destroy]. *)
Lemma C5_witness :
  exists arg,
    trace_of (WinEventProc (fun _ => Some 4242) 0
                (mkWinEvent (raw_event "destroy") 0x1A0 OBJID_WINDOW CHILDID_SELF)
                (world_of (StartWinEventHook [JsNumber 4242; JsFunction 1%nat]
                             partial_answers initial_world)))
    = [CallJs 1%nat arg] /\
    obj_get "type" arg = Some (JsString "destroy").
Proof.
  apply (proj2 (proj2 (C5_delivered_type_is_one_of_seven
           (world_of (StartWinEventHook [JsNumber 4242; JsFunction 1%nat]
                        partial_answers initial_world))
           sample_desktop 0 move_event))
           (installed 4242 1%nat partial_answers) 1%nat "destroy"%string 0x1A0).
  - reflexivity.
  - reflexivity.
  - simpl. tauto.
Defined.

(** The three branches of the DPI query at sample answers. *)
Lemma C7_witness :
  result_of (GetDpiScaleForHwnd [JsBigInt 0x1A0] modern_dpi initial_world)
  = Return (JsDouble (144 # 96)) /\
  result_of (GetDpiScaleForHwnd [JsBigInt 0x1A0] legacy_dpi initial_world)
  = Return (JsDouble (120 # 96)) /\
  result_of (GetDpiScaleForHwnd [JsBigInt 0x1A0] bare_dpi initial_world)
  = Return (JsDouble (1 # 1)).
Proof.
  pose proof (C7_dpi_scale_fallback_chain 0x1A0 [] modern_dpi initial_world) as Hm.
  pose proof (C7_dpi_scale_fallback_chain 0x1A0 [] legacy_dpi initial_world) as Hl.
  pose proof (C7_dpi_scale_fallback_chain 0x1A0 [] bare_dpi initial_world) as Hb.
  cbv zeta in Hm, Hl, Hb.
  destruct Hm as (Hm & _), Hl as (_ & Hl & _), Hb as (_ & _ & Hb & _).
  split; [|split].
  - apply (Hm ltac:(discriminate) (fun _ => 144) eq_refl).
  - apply (Hl ltac:(discriminate) eq_refl).
  - apply (Hb eq_refl).
Defined.

(** An activation of a handle that is no window. *)
Lemma C9_witness :
  ForceActivateWindow [JsBigInt 0x1A0] stale_activation initial_world
  = (Return (JsBoolean false), initial_world, []).
Proof.
  pose proof (C9_attach_always_paired_with_detach [JsBigInt 0x1A0] stale_activation
                initial_world) as H.
  cbv zeta in H. destruct H as (H & _).
  apply (H 0x1A0 [] eq_refl eq_refl).
Defined.

(** ** Sample runs *)

(** An activation that attaches: the attach is followed by the detach of
    the same pair of threads, and the link table is empty again. *)
Example activation_attaches_and_detaches :
  ForceActivateWindow [JsBigInt 0x1A0] granted_activation initial_world
  = (Return (JsBoolean true), initial_world,
     [CallAttachThreadInput 3 7 true true;
      CallShowWindow 0x1A0;
      CallSetForegroundWindow 0x1A0;
      CallBringWindowToTop 0x1A0;
      CallSetFocus 0x1A0;
      CallAttachThreadInput 3 7 false true]).
Proof. reflexivity. Qed.

(** A start on the initial world with three of four hooks granted. *)
Example start_registers_three_hooks :
  win_event_hooks
    (world_of (StartWinEventHook [JsNumber 4242; JsFunction 1%nat] partial_answers
                 initial_world))
  = [0x101; 0x102; 0x104].
Proof. reflexivity. Qed.

(** A move of a window of another process is dropped. *)
Example foreign_move_dropped :
  trace_of (WinEventProc sample_desktop 0
              (mkWinEvent EVENT_SYSTEM_MOVESIZESTART 0x2B0 OBJID_WINDOW CHILDID_SELF)
              (world_of (StartWinEventHook [JsNumber 4242; JsFunction 1%nat]
                           partial_answers initial_world)))
  = [].
Proof. reflexivity. Qed.

(** A tool window and a window without a title do not qualify. *)
Example tool_and_untitled_windows_skipped :
  FindWindowByPid [JsNumber 4242]
    [mkWindow 0x1E0 true 4242 WS_EX_TOOLWINDOW "Overlay" (Some (mkRECT 0 0 50 50));
     mkWindow 0x1F0 true 4242 0 "" (Some (mkRECT 0 0 50 50))]
  = Return JsNull.
Proof. reflexivity. Qed.

(** * Further properties of the addon *)

(** ** The process scan *)

Lemma tolower_N (c : ascii) :
  N_of_ascii (tolower c) =
    (if ((65 <=? N_of_ascii c) && (N_of_ascii c <=? 90))%N
     then N_of_ascii c + 32 else N_of_ascii c)%N.
Proof.
  unfold tolower.
  destruct ((65 <=? N_of_ascii c) && (N_of_ascii c <=? 90))%N eqn:E; [|reflexivity].
  apply andb_true_iff in E as [_ E2]. apply N.leb_le in E2.
  apply N_ascii_embedding. lia.
Qed.

Lemma N_of_ascii_inj (c d : ascii) : N_of_ascii c = N_of_ascii d -> c = d.
Proof.
  intros H. rewrite <- (ascii_N_embedding c), <- (ascii_N_embedding d), H. reflexivity.
Qed.

Lemma tolower_eq_iff (c d : ascii) : tolower c = tolower d <-> same_letter c d.
Proof.
  unfold same_letter. cbv zeta. split.
  - intros H. apply (f_equal N_of_ascii) in H. rewrite !tolower_N in H.
    destruct (N.leb_spec 65 (N_of_ascii c)), (N.leb_spec (N_of_ascii c) 90),
      (N.leb_spec 65 (N_of_ascii d)), (N.leb_spec (N_of_ascii d) 90);
      cbn [andb] in H; lia.
  - intros H. apply N_of_ascii_inj. rewrite !tolower_N.
    destruct (N.leb_spec 65 (N_of_ascii c)), (N.leb_spec (N_of_ascii c) 90),
      (N.leb_spec 65 (N_of_ascii d)), (N.leb_spec (N_of_ascii d) 90);
      cbn [andb]; lia.
Qed.

Lemma tolower_idempotent (c : ascii) : tolower c = tolower (tolower c).
Proof.
  apply N_of_ascii_inj. rewrite !tolower_N.
  repeat match goal with
         | |- context [N.leb ?a ?b] => destruct (N.leb_spec a b); cbn [andb]
         end; lia.
Qed.

Lemma names_match_iff (a b : string) :
  names_match a b = true <->
  Forall2 same_letter (list_ascii_of_string a) (list_ascii_of_string b).
Proof.
  unfold names_match. rewrite String.eqb_eq. revert b.
  induction a as [|c a IH]; intros [|d b]; cbn [lowercase list_ascii_of_string].
  - split; [constructor | reflexivity].
  - split; intros H; [discriminate H | inversion H].
  - split; intros H; [discriminate H | inversion H].
  - split.
    + intros H. injection H as Hc Hs. constructor.
      * apply tolower_eq_iff, Hc.
      * apply IH, Hs.
    + intros H. inversion H as [|? ? ? ? Hc Hs]; subst. f_equal.
      * apply tolower_eq_iff, Hc.
      * apply IH, Hs.
Qed.

Lemma scan_processes_first (processName : string) (snapshot : Z)
    (before : list PROCESSENTRY32) :
  forall entry rest e after,
    entry :: rest = before ++ e :: after ->
    names_match (szExeFile e) processName = true ->
    (forall x, In x before -> names_match (szExeFile x) processName = false) ->
    scan_processes processName snapshot entry rest =
      (Return (JsNumber (th32ProcessID e)),
       map (fun _ => CallProcess32Next true) before ++ [CallCloseHandle snapshot]).
Proof.
  induction before as [|b before IH]; intros entry rest e after Heq He Hbefore.
  - injection Heq as -> ->. destruct after; cbn [scan_processes]; rewrite He; reflexivity.
  - injection Heq as -> ->.
    assert (Hb : names_match (szExeFile b) processName = false)
      by (apply Hbefore; left; reflexivity).
    destruct before as [|b' before'].
    + cbn [app scan_processes]. rewrite Hb.
      rewrite (IH e after e after eq_refl He (fun x Hx => Hbefore x (or_intror Hx))).
      reflexivity.
    + cbn [app scan_processes]. rewrite Hb.
      rewrite (IH b' (before' ++ e :: after) e after eq_refl He
                 (fun x Hx => Hbefore x (or_intror Hx))).
      reflexivity.
Qed.

Lemma scan_processes_none (processName : string) (snapshot : Z)
    (rest : list PROCESSENTRY32) :
  forall entry,
    (forall x, In x (entry :: rest) -> names_match (szExeFile x) processName = false) ->
    scan_processes processName snapshot entry rest =
      (Return JsNull,
       map (fun _ => CallProcess32Next true) rest
       ++ [CallProcess32Next false; CallCloseHandle snapshot]).
Proof.
  induction rest as [|next rest IH]; intros entry Hall.
  - cbn [scan_processes]. rewrite (Hall entry (or_introl eq_refl)). reflexivity.
  - cbn [scan_processes]. rewrite (Hall entry (or_introl eq_refl)).
    rewrite IH; [reflexivity|]. intros x Hx. apply Hall. right. exact Hx.
Qed.

(** X1: [findProcessIdByName] returns the process id of the first entry of the
    snapshot whose file name matches, and does not read past it: the entries
    after the first match change neither the result nor the calls made.  It
    returns [null] when no entry matches, when the snapshot is empty, and
    when the snapshot cannot be taken. *)
Theorem FindProcessIdByName_first_match
    (processName : string) (more : list JsValue) (snapshot : Z)
    (processes : list PROCESSENTRY32) :
  let r := FindProcessIdByName (JsString processName :: more) snapshot processes in
  (snapshot = INVALID_HANDLE_VALUE -> fst r = Return JsNull) /\
  ((forall x, In x processes -> names_match (szExeFile x) processName = false) ->
     fst r = Return JsNull) /\
  (forall before e after,
     snapshot <> INVALID_HANDLE_VALUE ->
     processes = before ++ e :: after ->
     names_match (szExeFile e) processName = true ->
     (forall x, In x before -> names_match (szExeFile x) processName = false) ->
     fst r = Return (JsNumber (th32ProcessID e)) /\
     r = FindProcessIdByName (JsString processName :: more) snapshot (before ++ [e])).
Proof.
  intros r. subst r. unfold FindProcessIdByName. split; [|split].
  - intros ->. reflexivity.
  - intros Hall. destruct (snapshot =? INVALID_HANDLE_VALUE); [reflexivity|].
    destruct processes as [|entry rest]; [reflexivity|].
    rewrite (scan_processes_none _ _ _ _ Hall). reflexivity.
  - intros before e after Hs -> He Hbefore.
    apply Z.eqb_neq in Hs. rewrite Hs.
    destruct (before ++ e :: after) as [|entry rest] eqn:E1;
      [destruct before; discriminate E1|].
    destruct (before ++ [e]) as [|entry' rest'] eqn:E2;
      [destruct before; discriminate E2|].
    rewrite (scan_processes_first _ _ before entry rest e after (eq_sym E1) He Hbefore).
    rewrite (scan_processes_first _ _ before entry' rest' e [] (eq_sym E2) He Hbefore).
    split; reflexivity.
Qed.

(** X2: the match of [findProcessIdByName] is exact up to the case of the
    letters [A] to [Z]: two names match if and only if they have the same
    length and at every position hold the same byte or the same letter in
    the two cases.  A name therefore never matches a proper prefix or
    another substring of itself. *)
Theorem names_match_exact_up_to_case (entryName processName : string) :
  (names_match entryName processName = true <->
   Forall2 same_letter (list_ascii_of_string entryName)
     (list_ascii_of_string processName)) /\
  (names_match entryName processName = true ->
   String.length entryName = String.length processName) /\
  names_match entryName (lowercase entryName) = true.
Proof.
  split; [apply names_match_iff|]. split.
  - intros H. apply names_match_iff in H.
    revert processName H. induction entryName as [|c a IH]; intros [|d b] H;
      cbn [list_ascii_of_string] in H; inversion H; subst; cbn [String.length]; auto.
  - unfold names_match. apply String.eqb_eq.
    induction entryName as [|c a IH]; cbn [lowercase]; [reflexivity|].
    rewrite <- IH, <- tolower_idempotent. reflexivity.
Qed.

Lemma scan_processes_closes (processName : string) (snapshot : Z)
    (rest : list PROCESSENTRY32) :
  forall entry,
    exists t,
      snd (scan_processes processName snapshot entry rest) = t ++ [CallCloseHandle snapshot] /\
      closed_handles t = [].
Proof.
  induction rest as [|next rest IH]; intros entry; cbn [scan_processes].
  - destruct (names_match (szExeFile entry) processName).
    + exists []. split; reflexivity.
    + exists [CallProcess32Next false]. split; reflexivity.
  - destruct (names_match (szExeFile entry) processName).
    + exists []. split; reflexivity.
    + destruct (IH next) as (t & Ht & Hc).
      destruct (scan_processes processName snapshot next rest) as [r t'].
      cbn [snd] in *. subst t'. exists (CallProcess32Next true :: t).
      split; [reflexivity | exact Hc].
Qed.

(** X3: [findProcessIdByName] closes the snapshot it took exactly once, as its
    last call, on the path that finds a process as on the path that finds
    none; when the snapshot could not be taken, or the argument is rejected,
    it closes nothing. *)
Theorem FindProcessIdByName_closes_snapshot
    (info : list JsValue) (snapshot : Z) (processes : list PROCESSENTRY32) :
  let t := snd (FindProcessIdByName info snapshot processes) in
  (rejects_first IsString info = false /\ snapshot <> INVALID_HANDLE_VALUE ->
     exists t', t = t' ++ [CallCloseHandle snapshot] /\ closed_handles t' = []) /\
  (rejects_first IsString info = true \/ snapshot = INVALID_HANDLE_VALUE ->
     closed_handles t = []).
Proof.
  intros t. subst t. unfold FindProcessIdByName, rejects_first, arg.
  destruct info as [|[] more]; cbn;
    try (split; [intros [H _]; discriminate H | reflexivity]).
  destruct (Z.eqb_spec snapshot INVALID_HANDLE_VALUE) as [Hs|Hs].
  - split; [intros [_ H]; contradiction | reflexivity].
  - split; [|intros [H|H]; [discriminate H | contradiction]].
    intros _. destruct processes as [|entry rest].
    + exists [CallCreateToolhelp32Snapshot snapshot; CallProcess32First false].
      split; reflexivity.
    + destruct (scan_processes_closes s snapshot rest entry) as (t & Ht & Hc).
      destruct (scan_processes s snapshot entry rest) as [r t'].
      cbn [snd] in *. subst t'.
      exists (CallCreateToolhelp32Snapshot snapshot :: CallProcess32First true :: t).
      split; [reflexivity | exact Hc].
Qed.

(** ** The client rectangle on screen *)

(** X4: when the operating system maps client coordinates to the screen by a
    translation, [getClientBoundsOnScreen] reports the translated top-left
    corner and a width and height that are those of the client rectangle,
    wherever the window lies. *)
Theorem GetClientBoundsOnScreen_translation
    (z : Z) (more : list JsValue) (clientRect : RECT) (dx dy : Z)
    (GetClientRect_answer : HWND -> option RECT)
    (ClientToScreen_answer : HWND -> POINT -> option POINT) :
  GetClientRect_answer (Int64Value z) = Some clientRect ->
  (forall pt, ClientToScreen_answer (Int64Value z) pt
              = Some (mkPOINT (pt_x pt + dx) (pt_y pt + dy))) ->
  - 2 ^ 31 <= rect_right clientRect - rect_left clientRect < 2 ^ 31 ->
  - 2 ^ 31 <= rect_bottom clientRect - rect_top clientRect < 2 ^ 31 ->
  GetClientBoundsOnScreen (JsBigInt z :: more) GetClientRect_answer ClientToScreen_answer =
    ReturnObject
      [("x"%string, JsNumber (rect_left clientRect + dx));
       ("y"%string, JsNumber (rect_top clientRect + dy));
       ("width"%string, JsNumber (rect_right clientRect - rect_left clientRect));
       ("height"%string, JsNumber (rect_bottom clientRect - rect_top clientRect))].
Proof.
  intros Hrect Hmap Hw Hh. unfold GetClientBoundsOnScreen.
  rewrite Hrect, !Hmap. cbn [pt_x pt_y obj_set app].
  replace (rect_right clientRect + dx - (rect_left clientRect + dx))
    with (rect_right clientRect - rect_left clientRect) by lia.
  replace (rect_bottom clientRect + dy - (rect_top clientRect + dy))
    with (rect_bottom clientRect - rect_top clientRect) by lia.
  rewrite (wrap_i32_small _ Hw), (wrap_i32_small _ Hh). reflexivity.
Qed.

(** X5: for a handle argument [getClientBoundsOnScreen] never throws.  It
    returns [null] exactly when the client rectangle cannot be read or one of
    its two corners cannot be mapped to the screen (a handle that is no
    window), and otherwise an object whose fields are [x], [y], [width] and
    [height], in this order, each a number. *)
Theorem GetClientBoundsOnScreen_null_or_four_fields
    (z : Z) (more : list JsValue)
    (GetClientRect_answer : HWND -> option RECT)
    (ClientToScreen_answer : HWND -> POINT -> option POINT) :
  let hwnd := Int64Value z in
  let r := GetClientBoundsOnScreen (JsBigInt z :: more)
             GetClientRect_answer ClientToScreen_answer in
  let a_call_fails :=
    GetClientRect_answer hwnd = None \/
    exists rc,
      GetClientRect_answer hwnd = Some rc /\
      (ClientToScreen_answer hwnd (mkPOINT (rect_left rc) (rect_top rc)) = None \/
       ClientToScreen_answer hwnd (mkPOINT (rect_right rc) (rect_bottom rc)) = None) in
  (r = ReturnNull <-> a_call_fails) /\
  (~ a_call_fails ->
     exists x y width height,
       r = ReturnObject [("x"%string, JsNumber x); ("y"%string, JsNumber y);
                         ("width"%string, JsNumber width);
                         ("height"%string, JsNumber height)]) /\
  (forall e, r <> ThrowError e).
Proof.
  intros hwnd r fails. subst r fails hwnd. unfold GetClientBoundsOnScreen.
  destruct (GetClientRect_answer (Int64Value z)) as [rc|] eqn:Hrc.
  - destruct (ClientToScreen_answer (Int64Value z) (mkPOINT (rect_left rc) (rect_top rc)))
      as [tl|] eqn:Htl.
    + destruct (ClientToScreen_answer (Int64Value z)
                  (mkPOINT (rect_right rc) (rect_bottom rc))) as [br|] eqn:Hbr.
      * split; [|split].
        -- split; [intros H; discriminate H|].
           intros [H|(rc' & H & [H1|H1])]; [discriminate H| |];
             injection H as <-; congruence.
        -- intros _. cbn [obj_set app]. eauto.
        -- intros e H. discriminate H.
      * split; [|split].
        -- split; [|reflexivity]. intros _. right. exists rc. auto.
        -- intros H. exfalso. apply H. right. exists rc. auto.
        -- intros e H. discriminate H.
    + split; [|split].
      * split; [|reflexivity]. intros _. right. exists rc. auto.
      * intros H. exfalso. apply H. right. exists rc. auto.
      * intros e H. discriminate H.
  - split; [|split].
    + split; [|reflexivity]. intros _. left. reflexivity.
    + intros H. exfalso. apply H. left. reflexivity.
    + intros e H. discriminate H.
Qed.

(** ** Arguments at the boundary *)

Lemma scan_processes_returns (processName : string) (snapshot : Z)
    (rest : list PROCESSENTRY32) :
  forall entry, exists v, fst (scan_processes processName snapshot entry rest) = Return v.
Proof.
  induction rest as [|next rest IH]; intros entry; cbn [scan_processes].
  - destruct (names_match _ _); cbn [fst]; eauto.
  - destruct (names_match _ _); cbn [fst]; [eauto|].
    destruct (IH next) as (v & Hv).
    destruct (scan_processes processName snapshot next rest) as [r t].
    cbn [fst] in *. eauto.
Qed.

(** X6: each export that takes arguments rejects them with its [TypeError]
    exactly when the check the source writes fails: an argument is missing or
    has the wrong JavaScript type.  A rejected call makes no call of its own
    and leaves the world, and with it a live subscription, untouched.
    [stopWinEventHook] and [getForegroundPid] accept any arguments. *)
Theorem exports_reject_exactly_bad_arguments
    (info : list JsValue) (w : World) :
  (forall desktop,
     FindWindowByPid info desktop = Throw (TypeError "Expected number (pid)")
     <-> rejects_first IsNumber info = true) /\
  (forall snapshot processes,
     (fst (FindProcessIdByName info snapshot processes)
        = Throw (TypeError "Expected string (processName)")
      <-> rejects_first IsString info = true) /\
     (rejects_first IsString info = true ->
        snd (FindProcessIdByName info snapshot processes) = [])) /\
  (forall rect_answer screen_answer,
     GetClientBoundsOnScreen info rect_answer screen_answer
       = ThrowError (TypeError "Expected BigInt (hwnd)")
     <-> rejects_first IsBigInt info = true) /\
  (forall iconic,
     IsMinimized info iconic = Throw (TypeError "Expected BigInt (hwnd)")
     <-> rejects_first IsBigInt info = true) /\
  (forall os,
     (result_of (GetDpiScaleForHwnd info os w) = Throw (TypeError "Expected BigInt (hwnd)")
      <-> rejects_first IsBigInt info = true) /\
     (rejects_first IsBigInt info = true ->
        GetDpiScaleForHwnd info os w = (Throw (TypeError "Expected BigInt (hwnd)"), w, []))) /\
  (forall os,
     (result_of (ForceActivateWindow info os w) = Throw (TypeError "Expected BigInt (hwnd)")
      <-> rejects_first IsBigInt info = true) /\
     (rejects_first IsBigInt info = true ->
        ForceActivateWindow info os w = (Throw (TypeError "Expected BigInt (hwnd)"), w, []))) /\
  (forall os,
     (result_of (StartWinEventHook info os w)
        = Throw (TypeError "Expected (number pid, function callback)")
      <-> rejects_start info = true) /\
     (rejects_start info = true ->
        StartWinEventHook info os w
          = (Throw (TypeError "Expected (number pid, function callback)"), w, []))) /\
  (forall e, result_of (StopWinEventHook info w) <> Throw e) /\
  (forall fgHwnd owner uninit e, GetForegroundPid info fgHwnd owner uninit <> Throw e).
Proof.
  repeat match goal with |- _ /\ _ => split end.
  - intros desktop. unfold FindWindowByPid, rejects_first, arg.
    destruct info as [|[] more]; cbn; split; intros H; try reflexivity; try discriminate H.
    destruct (nonnull _) in H; discriminate H.
  - intros snapshot processes. unfold FindProcessIdByName, rejects_first, arg.
    destruct info as [|[] more]; cbn;
      (split; [split; intros H; try reflexivity; try discriminate H
              | intros H; try reflexivity; try discriminate H]).
    destruct (snapshot =? INVALID_HANDLE_VALUE); [discriminate H|].
    destruct processes as [|entry rest]; [discriminate H|].
    destruct (scan_processes_returns s snapshot rest entry) as (v & Hv).
    destruct (scan_processes s snapshot entry rest) as [r t]. cbn [fst] in *.
    congruence.
  - intros rect_answer screen_answer. unfold GetClientBoundsOnScreen, rejects_first, arg.
    destruct info as [|[] more]; cbn; split; intros H; try reflexivity; try discriminate H.
    repeat match type of H with
           | context [match ?x with Some _ => _ | None => _ end] => destruct x
           end; discriminate H.
  - intros iconic. unfold IsMinimized, rejects_first, arg.
    destruct info as [|[] more]; cbn; split; intros H; try reflexivity; discriminate H.
  - intros os. unfold GetDpiScaleForHwnd, rejects_first, arg.
    destruct info as [|[] more]; cbn;
      (split; [split; intros H; try reflexivity; try discriminate H
              | intros H; try reflexivity; try discriminate H]).
    revert H. unfold bind, GetProcAddress, GetDC, GetDeviceCaps, emit, ret, result_of.
    destruct (negb (nonnull (user32 os))); [intros H; discriminate H|].
    destruct (GetDpiForWindow os); cbn; intros H; discriminate H.
  - intros os. unfold ForceActivateWindow, rejects_first, arg.
    destruct info as [|[] more]; cbn;
      (split; [split; intros H; try reflexivity; try discriminate H
              | intros H; try reflexivity; try discriminate H]).
    revert H. unfold bind, AttachThreadInput, emit, ret, when, result_of.
    destruct (negb (IsWindow os (Int64Value z))); [intros H; discriminate H|].
    destruct (negb _ && negb _); destruct (attach_answer os);
      destruct (IsIconic os (Int64Value z)); cbn; intros H; discriminate H.
  - intros os.
    assert (Hiff : installs (OpStart info os) = None <-> rejects_start info = true).
    { unfold installs, rejects_start, arg.
      destruct info as [|[] [|[] more]]; cbn; split; intros H;
        try reflexivity; discriminate H. }
    split; [split|].
    + intros H. apply Hiff. destruct (installs (OpStart info os)) as [cb|] eqn:E;
        [|reflexivity].
      exfalso. apply installs_inv in E as (n & more & ->). revert H.
      destruct w as [[s|] table links];
        [rewrite start_run_live | rewrite start_run_stopped];
        unfold result_of, start_outcome; cbn [fst];
        destruct (all_failed os); intros H; discriminate H.
    + intros H. apply Hiff in H. rewrite (start_run_invalid _ _ _ H). reflexivity.
    + intros H. apply Hiff in H. apply start_run_invalid, H.
  - intros e. destruct w as [[s|] table links];
      [rewrite stop_run_live | rewrite stop_run_stopped]; intros H; discriminate H.
  - intros fgHwnd owner uninit e. unfold GetForegroundPid.
    destruct (negb (nonnull fgHwnd)); intros H; discriminate H.
Qed.

(** ** Handles across the boundary *)

Lemma Int64Value_small (h : Z) : - 2 ^ 63 <= h < 2 ^ 63 -> Int64Value h = h.
Proof. intros H. unfold Int64Value, wrap_i64. rewrite Z.mod_small; lia. Qed.

Lemma Int64Value_wraps (z k : Z) : Int64Value (z + k * 2 ^ 64) = Int64Value z.
Proof.
  unfold Int64Value, wrap_i64.
  replace (z + k * 2 ^ 64 + 2 ^ 63) with (z + 2 ^ 63 + k * 2 ^ 64) by lia.
  rewrite Z_mod_plus_full. reflexivity.
Qed.

(** X7: a [BigInt] that does not fit 64 bits is not rejected: the exports that
    take a handle read it modulo 2^64 (the [lossless] flag is not looked
    at), so two arguments that differ by a multiple of 2^64 name the same
    window to every one of them; the handle read always lies in the signed
    64-bit range. *)
Theorem handle_argument_read_modulo_2_64 (z k : Z) (more : list JsValue) (w : World) :
  (- 2 ^ 63 <= Int64Value z < 2 ^ 63) /\
  (forall iconic,
     IsMinimized (JsBigInt (z + k * 2 ^ 64) :: more) iconic
     = IsMinimized (JsBigInt z :: more) iconic) /\
  (forall rect_answer screen_answer,
     GetClientBoundsOnScreen (JsBigInt (z + k * 2 ^ 64) :: more) rect_answer screen_answer
     = GetClientBoundsOnScreen (JsBigInt z :: more) rect_answer screen_answer) /\
  (forall os,
     GetDpiScaleForHwnd (JsBigInt (z + k * 2 ^ 64) :: more) os w
     = GetDpiScaleForHwnd (JsBigInt z :: more) os w) /\
  (forall os,
     ForceActivateWindow (JsBigInt (z + k * 2 ^ 64) :: more) os w
     = ForceActivateWindow (JsBigInt z :: more) os w).
Proof.
  split.
  - unfold Int64Value, wrap_i64.
    pose proof (Z.mod_pos_bound (z + 2 ^ 63) (2 ^ 64) ltac:(lia)). lia.
  - unfold IsMinimized, GetClientBoundsOnScreen, GetDpiScaleForHwnd, ForceActivateWindow.
    rewrite Int64Value_wraps. repeat split.
Qed.

(** X8: the handle [findWindowByPid] returns names the window it selected to
    the other exports: when the handles of the enumeration are 64-bit
    values, the returned [BigInt] is read back unchanged, so [isMinimized]
    answers for that window and [forceActivateWindow] reports whether that
    window is a window and ended up in the foreground. *)
Theorem FindWindowByPid_handle_round_trip
    (info : list JsValue) (desktop : list Window) (h : Z) :
  Forall (fun w => - 2 ^ 63 <= handle w < 2 ^ 63) desktop ->
  FindWindowByPid info desktop = Return (JsBigInt h) ->
  exists w,
    In w desktop /\ handle w = h /\ Int64Value h = handle w /\
    (forall iconic,
       IsMinimized [JsBigInt h] iconic = Return (JsBoolean (iconic (handle w)))) /\
    (forall os world,
       result_of (ForceActivateWindow [JsBigInt h] os world)
       = Return (JsBoolean (IsWindow os (handle w)
                            && (foreground_after os =? handle w)))).
Proof.
  intros Hrange. unfold FindWindowByPid.
  destruct info as [|[] more]; try (intros H; discriminate H).
  destruct (EnumWindows_found desktop (mkEnumData (Uint32Value n) NULL 0))
    as [->|(w & Hin & _ & Hh & _)].
  - cbn. intros H. discriminate H.
  - rewrite Hh. destruct (nonnull (handle w)); intros H; [|discriminate H].
    injection H as <-. exists w.
    rewrite Forall_forall in Hrange.
    pose proof (Int64Value_small _ (Hrange w Hin)) as Hsmall.
    split; [exact Hin|]. split; [reflexivity|]. split; [exact Hsmall|]. split.
    + intros iconic. unfold IsMinimized. rewrite Hsmall. reflexivity.
    + intros os world. unfold ForceActivateWindow. rewrite Hsmall.
      destruct (IsWindow os (handle w)); cbn [negb andb]; [|reflexivity].
      unfold bind, AttachThreadInput, emit, ret, when, result_of.
      destruct (negb _ && negb _); destruct (attach_answer os);
        destruct (IsIconic os (handle w)); reflexivity.
Qed.

(** ** Hook handles over a run *)

Lemma granted_app (t1 t2 : list Effect) : granted (t1 ++ t2) = granted t1 ++ granted t2.
Proof.
  induction t1 as [|e t1 IH]; [reflexivity|].
  destruct e; cbn [app granted]; rewrite ?IH; try reflexivity.
  destruct (nonnull result); reflexivity.
Qed.

Lemma released_app (t1 t2 : list Effect) : released (t1 ++ t2) = released t1 ++ released t2.
Proof.
  induction t1 as [|e t1 IH]; [reflexivity|].
  destruct e; cbn [app released]; rewrite ?IH; reflexivity.
Qed.

Lemma granted_nonnull (t : list Effect) : Forall (fun h => h <> NULL) (granted t).
Proof.
  induction t as [|e t IH]; [constructor|].
  destruct e; cbn [granted]; try exact IH.
  destruct (nonnull result) eqn:E; [|exact IH].
  constructor; [|exact IH]. unfold nonnull in E.
  apply negb_true_iff, Z.eqb_neq in E. exact E.
Qed.

Lemma unhook_calls_handles (l : list HWINEVENTHOOK) :
  granted (map CallUnhookWinEvent l) = [] /\ released (map CallUnhookWinEvent l) = l.
Proof.
  induction l as [|h l [IH1 IH2]]; [split; reflexivity|].
  cbn [map granted released]. rewrite IH1, IH2. split; reflexivity.
Qed.

Lemma teardown_calls_handles (s : HookState) :
  granted (teardown_calls s) = [] /\ released (teardown_calls s) = live_handles s.
Proof.
  unfold teardown_calls. rewrite granted_app, released_app.
  destruct (unhook_calls_handles (live_handles s)) as [-> ->].
  cbn [granted released app]. split; [reflexivity | apply app_nil_r].
Qed.

Lemma start_calls_handles (n : Z) (cb : JsFunctionId) (os : HookAnswers) :
  granted (start_calls cb os) = live_handles (installed n cb os) /\
  released (start_calls cb os) = [].
Proof.
  destruct os as [a1 a2 a3 a4 e].
  unfold start_calls, registration_calls, all_failed, installed, live_handles.
  cbn [answer1 answer2 answer3 answer4 last_error hookHandle1 hookHandle2 hookHandle3
       hookHandle4 app granted released filter].
  destruct (nonnull a1), (nonnull a2), (nonnull a3), (nonnull a4); split; reflexivity.
Qed.

Lemma start_world_hooks (n : Z) (cb : JsFunctionId) (os : HookAnswers)
    (links : list (DWORD * DWORD)) :
  win_event_hooks (start_world n cb os [] links) = live_handles (installed n cb os).
Proof.
  unfold start_world. destruct (all_failed os) eqn:E; [|reflexivity].
  destruct os as [a1 a2 a3 a4 e]. unfold all_failed, installed, live_handles in *.
  cbn in *. destruct (nonnull a1), (nonnull a2), (nonnull a3), (nonnull a4);
    try discriminate E; reflexivity.
Qed.

Lemma WinEventProc_no_hook_calls (owner : Desktop) (uninit : DWORD) (e : WinEvent)
    (w : World) :
  granted (trace_of (WinEventProc owner uninit e w)) = [] /\
  released (trace_of (WinEventProc owner uninit e w)) = [].
Proof.
  destruct w as [[s|] table links]; [|split; reflexivity].
  rewrite WinEventProc_trace.
  repeat match goal with
         | |- context [if ?b then _ else _] => destruct b
         | |- context [match ?x with Some _ => _ | None => _ end] => destruct x
         end; split; reflexivity.
Qed.

Lemma step_balanced (o : Op) (w : World) :
  consistent w ->
  win_event_hooks w ++ granted (trace_of (step o w)) =
  released (trace_of (step o w)) ++ win_event_hooks (world_of (step o w)).
Proof.
  intros Hw. destruct o as [info os|info|owner uninit e]; cbn [step].
  - destruct (installs (OpStart info os)) as [cb|] eqn:E.
    + destruct (installs_inv _ _ _ E) as (n & more & ->).
      destruct (start_calls_handles n cb os) as [Hg Hr].
      destruct (consistent_inv w Hw) as [->|(s & ->)]; unfold bind;
        autorewrite with hook_run; unfold trace_of, world_of, ret;
        cbn [fst snd win_event_hooks]; rewrite ?app_nil_r.
      * rewrite Hg, Hr, start_world_hooks. reflexivity.
      * destruct (teardown_calls_handles s) as [Hg' Hr'].
        rewrite granted_app, released_app, Hg, Hr, Hg', Hr', start_world_hooks, app_nil_r.
        reflexivity.
    + unfold bind. rewrite (start_run_invalid _ _ _ E).
      unfold trace_of, world_of, ret. cbn. rewrite app_nil_r. reflexivity.
  - destruct (consistent_inv w Hw) as [->|(s & ->)]; unfold bind;
      autorewrite with hook_run; unfold trace_of, world_of, ret;
      cbn [fst snd win_event_hooks]; rewrite ?app_nil_r; [reflexivity|].
    destruct (teardown_calls_handles s) as [Hg' Hr']. rewrite Hg', Hr', app_nil_r.
    reflexivity.
  - destruct (WinEventProc_no_hook_calls owner uninit e w) as [Hg Hr].
    rewrite Hg, Hr, WinEventProc_world, app_nil_r. reflexivity.
Qed.

Lemma run_balanced (ops : list Op) :
  forall w : World,
    consistent w ->
    win_event_hooks w ++ granted (trace_of (run ops w)) =
    released (trace_of (run ops w)) ++ win_event_hooks (world_of (run ops w)).
Proof.
  induction ops as [|o ops IH]; intros w Hw.
  - cbn. rewrite app_nil_r. reflexivity.
  - rewrite run_cons.
    change (win_event_hooks w ++
            granted (trace_of (step o w) ++ trace_of (run ops (world_of (step o w)))) =
            released (trace_of (step o w) ++ trace_of (run ops (world_of (step o w)))) ++
            win_event_hooks (world_of (run ops (world_of (step o w))))).
    rewrite granted_app, released_app, app_assoc, (step_balanced o w Hw), <- !app_assoc.
    f_equal. apply IH, step_consistent, Hw.
Qed.

(** X9: over any run of starts, stops and notifications since the addon was
    loaded, the hook handles obtained from [SetWinEventHook] are, in the
    order obtained, the handles passed to [UnhookWinEvent] followed by the
    handles still registered: no handle is released twice or without having
    been obtained, [NULL] is never released, and once the core is stopped
    every handle ever obtained has been released. *)
Theorem hook_handles_balanced (ops : list Op) :
  let r := run ops initial_world in
  granted (trace_of r) = released (trace_of r) ++ win_event_hooks (world_of r) /\
  Forall (fun h => h <> NULL) (released (trace_of r)) /\
  (g_hookState (world_of r) = None -> granted (trace_of r) = released (trace_of r)).
Proof.
  intros r. subst r.
  pose proof (run_balanced ops initial_world initial_world_consistent) as Hb.
  cbn [initial_world win_event_hooks app] in Hb.
  split; [exact Hb|]. split.
  - pose proof (granted_nonnull (trace_of (run ops initial_world))) as Hn.
    rewrite Hb in Hn. apply Forall_app in Hn. apply Hn.
  - intros Hs. rewrite Hb.
    destruct (run_consistent ops initial_world initial_world_consistent)
      as [[_ Ht]|(s & f & Hs' & _)]; [|congruence].
    rewrite Ht, app_nil_r. reflexivity.
Qed.

(** ** More on the dispatch callback *)

(** X10: one notification leads to at most one call, and that call is a call
    of the callback: the dispatch callback calls nothing else and writes
    nothing.  A notification outside the window scope ([idObject] other than
    [OBJID_WINDOW] or [idChild] other than [CHILDID_SELF]) and a notification
    that arrives while no state exists are dropped, a foreground change
    included. *)
Theorem WinEventProc_at_most_one_call
    (owner : Desktop) (uninit : DWORD) (e : WinEvent) (w : World) :
  let r := WinEventProc owner uninit e w in
  (trace_of r = [] \/ exists f arg, trace_of r = [CallJs f arg] /\ registered w = Some f) /\
  world_of r = w /\
  (g_hookState w = None -> trace_of r = []) /\
  (idObject e <> OBJID_WINDOW \/ idChild e <> CHILDID_SELF -> trace_of r = []).
Proof.
  intros r. subst r. split; [|split; [apply WinEventProc_world|split]].
  - destruct w as [[s|] table links]; [|left; reflexivity].
    rewrite WinEventProc_trace. unfold registered. cbn [g_hookState].
    repeat match goal with
           | |- context [if ?b then _ else _] => destruct b
           | |- context [match event_type ?x with Some _ => _ | None => _ end] =>
               destruct (event_type x)
           | |- context [match jsCallback ?x with Some _ => _ | None => _ end] =>
               destruct (jsCallback x)
           end; eauto.
  - intros Hs. destruct w as [st table links]. cbn in Hs. subst st. reflexivity.
  - intros Hscope. destruct w as [[s|] table links]; [|reflexivity].
    rewrite WinEventProc_trace.
    destruct (Z.eqb_spec (idObject e) OBJID_WINDOW) as [HO|HO];
      destruct (Z.eqb_spec (idChild e) CHILDID_SELF) as [HC|HC];
      cbn [negb orb]; try reflexivity.
    destruct Hscope; contradiction.
Qed.

Lemma event_type_raw_event (ev : DWORD) (ty : string) :
  event_type ev = Some ty -> raw_event ty = ev /\ ty <> "foreground"%string.
Proof.
  unfold event_type.
  repeat match goal with
         | |- context [?a =? ?b] => destruct (Z.eqb_spec a b) as [->|_]
         end; intros H; inversion H; subst; split; try reflexivity; discriminate.
Qed.

(** X11: the object handed to the callback has one of two shapes.  For a
    foreground change its fields are [type], [hwnd] and [pid], in this
    order, and [type] is ["foreground"]; for any other event they are [type]
    and [hwnd] and [type] is not ["foreground"].  [hwnd] is always the handle
    of the notification as a [BigInt], and [type] determines the raw event
    code: two notifications delivered with the same [type] had the same
    code. *)
Theorem delivered_event_wire_shape
    (owner : Desktop) (uninit : DWORD) (e : WinEvent) (w : World)
    (f : JsFunctionId) (arg : JsObject) :
  In (CallJs f arg) (trace_of (WinEventProc owner uninit e w)) ->
  exists ty,
    obj_get "type" arg = Some (JsString ty) /\
    obj_get "hwnd" arg = Some (JsBigInt (hwnd e)) /\
    raw_event ty = event e /\
    ((ty = "foreground"%string /\
      exists p, arg = [("type"%string, JsString ty); ("hwnd"%string, JsBigInt (hwnd e));
                       ("pid"%string, JsNumber p)]) \/
     (ty <> "foreground"%string /\
      arg = [("type"%string, JsString ty); ("hwnd"%string, JsBigInt (hwnd e))])).
Proof.
  destruct w as [[s|] table links]; [|cbn; tauto].
  rewrite WinEventProc_trace.
  destruct (negb (idObject e =? OBJID_WINDOW) || negb (idChild e =? CHILDID_SELF));
    [cbn; tauto|].
  destruct (Z.eqb_spec (event e) EVENT_SYSTEM_FOREGROUND) as [Hfg|Hfg].
  - destruct (jsCallback s); [|cbn; tauto].
    intros [H|[]]. inversion H; subst. exists "foreground"%string.
    repeat split; try reflexivity; [symmetry; exact Hfg|].
    left. split; [reflexivity|]. eauto.
  - destruct (negb (GetWindowThreadProcessId owner (hwnd e) uninit =? targetPid s));
      [cbn; tauto|].
    destruct (event_type (event e)) as [ty|] eqn:Ety; [|cbn; tauto].
    destruct (jsCallback s); [|cbn; tauto].
    intros [H|[]]. inversion H; subst.
    destruct (event_type_raw_event _ _ Ety) as [Hraw Hne].
    exists ty. repeat split; try reflexivity; [exact Hraw|].
    right. split; [exact Hne | reflexivity].
Qed.

(** ** The event ranges of a start *)

Lemma event_ranges_app (t1 t2 : list Effect) :
  event_ranges (t1 ++ t2) = event_ranges t1 ++ event_ranges t2.
Proof.
  induction t1 as [|e t1 IH]; [reflexivity|].
  destruct e; cbn [app event_ranges]; rewrite ?IH; reflexivity.
Qed.

Lemma event_ranges_teardown (s : HookState) : event_ranges (teardown_calls s) = [].
Proof.
  unfold teardown_calls. rewrite event_ranges_app.
  induction (live_handles s) as [|h l IH]; [reflexivity | exact IH].
Qed.

Lemma event_ranges_start_calls (cb : JsFunctionId) (os : HookAnswers) :
  event_ranges (start_calls cb os) =
    [(EVENT_OBJECT_LOCATIONCHANGE, EVENT_OBJECT_DESTROY);
     (EVENT_SYSTEM_MOVESIZESTART, EVENT_SYSTEM_MOVESIZEEND);
     (EVENT_SYSTEM_MINIMIZESTART, EVENT_SYSTEM_MINIMIZEEND);
     (EVENT_SYSTEM_FOREGROUND, EVENT_SYSTEM_FOREGROUND)].
Proof. unfold start_calls. cbn. destruct (all_failed os); reflexivity. Qed.

(** X12: a start that passes the argument check always attempts its four
    registrations, whichever of them fail, with the same four event ranges.
    The range of the first one runs from [EVENT_OBJECT_LOCATIONCHANGE]
    (0x800B) up to [EVENT_OBJECT_DESTROY] (0x8001), a lower bound above the
    upper bound, so no event code lies in it: the codes that lie in a
    registered range are those of foreground, move start and end, and
    minimize start and end, and the codes of location change and destroy lie
    in none. *)
Theorem start_event_ranges
    (w : World) (n : Z) (cb : JsFunctionId) (more : list JsValue) (os : HookAnswers) :
  let ranges :=
    event_ranges (trace_of (StartWinEventHook (JsNumber n :: JsFunction cb :: more) os w)) in
  ranges = [(EVENT_OBJECT_LOCATIONCHANGE, EVENT_OBJECT_DESTROY);
            (EVENT_SYSTEM_MOVESIZESTART, EVENT_SYSTEM_MOVESIZEEND);
            (EVENT_SYSTEM_MINIMIZESTART, EVENT_SYSTEM_MINIMIZEEND);
            (EVENT_SYSTEM_FOREGROUND, EVENT_SYSTEM_FOREGROUND)] /\
  (forall ev,
     covered ranges ev <->
     In ev [EVENT_SYSTEM_FOREGROUND; EVENT_SYSTEM_MOVESIZESTART; EVENT_SYSTEM_MOVESIZEEND;
            EVENT_SYSTEM_MINIMIZESTART; EVENT_SYSTEM_MINIMIZEEND]) /\
  ~ covered ranges EVENT_OBJECT_LOCATIONCHANGE /\
  ~ covered ranges EVENT_OBJECT_DESTROY.
Proof.
  intros ranges.
  assert (Hr : ranges = [(EVENT_OBJECT_LOCATIONCHANGE, EVENT_OBJECT_DESTROY);
                         (EVENT_SYSTEM_MOVESIZESTART, EVENT_SYSTEM_MOVESIZEEND);
                         (EVENT_SYSTEM_MINIMIZESTART, EVENT_SYSTEM_MINIMIZEEND);
                         (EVENT_SYSTEM_FOREGROUND, EVENT_SYSTEM_FOREGROUND)]).
  { subst ranges. destruct w as [[s|] table links];
      [rewrite start_run_live | rewrite start_run_stopped];
      unfold trace_of; cbn [snd];
      rewrite ?event_ranges_app, ?event_ranges_teardown, event_ranges_start_calls;
      reflexivity. }
  assert (Hc : forall ev,
             covered ranges ev <->
             In ev [EVENT_SYSTEM_FOREGROUND; EVENT_SYSTEM_MOVESIZESTART;
                    EVENT_SYSTEM_MOVESIZEEND; EVENT_SYSTEM_MINIMIZESTART;
                    EVENT_SYSTEM_MINIMIZEEND]).
  { intros ev. rewrite Hr. unfold covered,
      EVENT_OBJECT_LOCATIONCHANGE, EVENT_OBJECT_DESTROY, EVENT_SYSTEM_MOVESIZESTART,
      EVENT_SYSTEM_MOVESIZEEND, EVENT_SYSTEM_MINIMIZESTART, EVENT_SYSTEM_MINIMIZEEND,
      EVENT_SYSTEM_FOREGROUND. cbn [In]. split.
    - intros (lo & hi & Hin & Hle).
      repeat (destruct Hin as [Hin|Hin]; [injection Hin as <- <-; lia|]).
      contradiction.
    - intros [<-|[<-|[<-|[<-|[<-|[]]]]]].
      + exists 3, 3. split; [tauto | lia].
      + exists 10, 11. split; [tauto | lia].
      + exists 10, 11. split; [tauto | lia].
      + exists 22, 23. split; [tauto | lia].
      + exists 22, 23. split; [tauto | lia]. }
  split; [exact Hr|]. split; [exact Hc|]. split.
  - intros H. apply Hc in H. cbn in H. unfold EVENT_OBJECT_LOCATIONCHANGE,
      EVENT_SYSTEM_FOREGROUND, EVENT_SYSTEM_MOVESIZESTART, EVENT_SYSTEM_MOVESIZEEND,
      EVENT_SYSTEM_MINIMIZESTART, EVENT_SYSTEM_MINIMIZEEND in H. lia.
  - intros H. apply Hc in H. cbn in H. unfold EVENT_OBJECT_DESTROY,
      EVENT_SYSTEM_FOREGROUND, EVENT_SYSTEM_MOVESIZESTART, EVENT_SYSTEM_MOVESIZEEND,
      EVENT_SYSTEM_MINIMIZESTART, EVENT_SYSTEM_MINIMIZEEND in H. lia.
Qed.

(** ** Notifications about a window that is gone *)

(** X13: when the window of a notification no longer exists, so that
    [GetWindowThreadProcessId] fills nothing in, the dispatch callback goes on
    with what its local [windowPid] held before the call, which the source
    never initialises: the notification is handled as if the window belonged
    to that process.  A foreground event then carries that value as its
    [pid], and any other event of a known kind is delivered exactly when that
    value equals the target pid. *)
Theorem WinEventProc_window_gone
    (owner : Desktop) (uninit : DWORD) (e : WinEvent)
    (s : HookState) (f : JsFunctionId)
    (table : list HWINEVENTHOOK) (links : list (DWORD * DWORD)) :
  jsCallback s = Some f ->
  idObject e = OBJID_WINDOW ->
  idChild e = CHILDID_SELF ->
  owner (hwnd e) = None ->
  let w := mkWorld (Some s) table links in
  let t := trace_of (WinEventProc owner uninit e w) in
  t = trace_of (WinEventProc (fun _ => Some uninit) uninit e w) /\
  (event e = EVENT_SYSTEM_FOREGROUND ->
     t = [CallJs f [("type"%string, JsString "foreground");
                    ("hwnd"%string, JsBigInt (hwnd e));
                    ("pid"%string, JsNumber uninit)]]) /\
  (forall ty,
     event e <> EVENT_SYSTEM_FOREGROUND -> event_type (event e) = Some ty ->
     (uninit = targetPid s ->
        t = [CallJs f [("type"%string, JsString ty); ("hwnd"%string, JsBigInt (hwnd e))]]) /\
     (uninit <> targetPid s -> t = [])).
Proof.
  intros Hf HO HC Hgone w t. subst t w. rewrite !WinEventProc_trace.
  unfold GetWindowThreadProcessId. rewrite Hgone, HO, HC, Hf, !Z.eqb_refl.
  cbn [negb orb]. split; [reflexivity|]. split.
  - intros ->. rewrite Z.eqb_refl. reflexivity.
  - intros ty Hfg Hty. apply Z.eqb_neq in Hfg. rewrite Hfg, Hty. split.
    + intros ->. rewrite Z.eqb_refl. reflexivity.
    + intros Hne. apply Z.eqb_neq in Hne. rewrite Hne. reflexivity.
Qed.

(** ** More on the window enumeration *)

Lemma EnumProc_pid (w : Window) (ed : EnumData) : pid (snd (EnumProc w ed)) = pid ed.
Proof.
  rewrite EnumProc_run. cbn [snd].
  destruct (qualifies (pid ed) w && (GetWindowArea w >? bestArea ed)); reflexivity.
Qed.

Lemma EnumWindows_filter (l : list Window) :
  forall ed,
    EnumWindows EnumProc l ed = EnumWindows EnumProc (filter (qualifies (pid ed)) l) ed.
Proof.
  induction l as [|w l IH]; intros ed; [reflexivity|].
  cbn [filter]. destruct (qualifies (pid ed) w) eqn:Q.
  - rewrite !EnumWindows_cons, IH, EnumProc_pid. reflexivity.
  - rewrite EnumWindows_cons, EnumProc_run, Q. cbn [andb snd]. apply IH.
Qed.

(** The best candidate after an enumeration is at least as large as every
    qualifying window of the enumeration, and is the candidate before it or
    has the handle and the area of a qualifying window. *)
Lemma EnumWindows_best (l : list Window) :
  forall ed,
    let r := EnumWindows EnumProc l ed in
    bestArea ed <= bestArea r /\
    (forall x, In x l -> qualifies (pid ed) x = true -> GetWindowArea x <= bestArea r) /\
    (r = ed \/
     exists x, In x l /\ qualifies (pid ed) x = true /\
               bestHwnd r = handle x /\ bestArea r = GetWindowArea x).
Proof.
  induction l as [|w l IH]; intros ed; cbv zeta.
  - cbn. split; [lia|]. split; [intros x []|left; reflexivity].
  - rewrite EnumWindows_cons, EnumProc_run. cbn [snd].
    destruct (qualifies (pid ed) w && (GetWindowArea w >? bestArea ed)) eqn:C.
    + apply andb_true_iff in C as [Q G].
      assert (Hgt : bestArea ed < GetWindowArea w)
        by (destruct (Z.gtb_spec (GetWindowArea w) (bestArea ed)); [lia | discriminate G]).
      destruct (IH (mkEnumData (pid ed) (handle w) (GetWindowArea w))) as (H1 & H2 & H3).
      cbn [pid bestArea] in *. split; [lia|]. split.
      * intros x [<-|Hx] Qx; [exact H1 | apply H2; assumption].
      * right. destruct H3 as [->|(x & Hx & Qx & Hh & Ha)].
        -- exists w. repeat split; try reflexivity; [left; reflexivity | exact Q].
        -- exists x. repeat split; try assumption. right. exact Hx.
    + destruct (IH ed) as (H1 & H2 & H3). split; [exact H1|]. split.
      * intros x [Heq|Hx] Qx; [subst x|apply H2; assumption].
        rewrite Qx in C. cbn [andb] in C.
        destruct (Z.gtb_spec (GetWindowArea w) (bestArea ed)); [discriminate C | lia].
      * destruct H3 as [->|(x & Hx & Qx & Hh & Ha)]; [left; reflexivity|].
        right. exists x. repeat split; try assumption. right. exact Hx.
Qed.

(** X14: windows that do not qualify play no part in [findWindowByPid]:
    removing them from the enumeration, wherever they stand, leaves the
    result as it is. *)
Theorem FindWindowByPid_ignores_other_windows
    (n : Z) (more : list JsValue) (desktop : list Window) :
  FindWindowByPid (JsNumber n :: more) desktop =
  FindWindowByPid (JsNumber n :: more) (filter (qualifies (Uint32Value n)) desktop).
Proof.
  unfold FindWindowByPid. cbv zeta.
  rewrite (EnumWindows_filter desktop (mkEnumData (Uint32Value n) NULL 0)).
  reflexivity.
Qed.

(** X15: when one qualifying window is strictly larger than every qualifying
    window with another handle, and its area is positive, [findWindowByPid]
    returns its handle whatever the order of the enumeration: the order
    matters for ties only. *)
Theorem FindWindowByPid_order_independent
    (p : Z) (more : list JsValue) (desktop desktop' : list Window) (w : Window) :
  0 <= p < 2 ^ 32 ->
  Permutation desktop desktop' ->
  In w desktop ->
  qualifies p w = true ->
  handle w <> NULL ->
  0 < GetWindowArea w ->
  (forall x, In x desktop -> qualifies p x = true -> handle x <> handle w ->
             GetWindowArea x < GetWindowArea w) ->
  FindWindowByPid (JsNumber p :: more) desktop = Return (JsBigInt (handle w)) /\
  FindWindowByPid (JsNumber p :: more) desktop' = Return (JsBigInt (handle w)).
Proof.
  intros Hp Hperm Hin Q Hnn Hpos Hmax.
  assert (Hany : forall l, (forall x, In x l <-> In x desktop) ->
            FindWindowByPid (JsNumber p :: more) l = Return (JsBigInt (handle w))).
  { intros l Hl. rewrite (FindWindowByPid_run p more l Hp). cbv zeta.
    destruct (EnumWindows_best l (mkEnumData p NULL 0)) as (_ & Hmaxr & Hr).
    cbn [pid bestArea] in *.
    assert (Hge : GetWindowArea w <= bestArea (EnumWindows EnumProc l (mkEnumData p NULL 0)))
      by (apply Hmaxr; [apply Hl, Hin | exact Q]).
    destruct Hr as [Hr|(x & Hx & Qx & Hh & Ha)].
    - rewrite Hr in Hge. cbn in Hge. lia.
    - rewrite Hh. destruct (Z.eq_dec (handle x) (handle w)) as [Heq|Hneq].
      + rewrite Heq. unfold nonnull. apply Z.eqb_neq in Hnn. rewrite Hnn. reflexivity.
      + pose proof (Hmax x (proj1 (Hl x) Hx) Qx Hneq). lia. }
  split; apply Hany.
  - tauto.
  - intros x. split; intros Hx.
    + eapply Permutation_in; [apply Permutation_sym, Hperm | exact Hx].
    + eapply Permutation_in; [exact Hperm | exact Hx].
Qed.

(** ** More on the activation *)

(** X16: the calls of [forceActivateWindow] on a handle that is a window, in
    order.  The thread input is attached only when there is a foreground
    window whose thread is known and is not the calling thread.  The window
    is restored exactly when [isMinimized] reports it minimized.  Then
    [SetForegroundWindow], [BringWindowToTop] and [SetFocus] are called on
    the window, always and in this order, and when the attach succeeded they
    run while the threads are linked: the detach is the last call.  The
    result tells whether the window is the foreground window afterwards,
    whether or not the attach succeeded. *)
Theorem ForceActivateWindow_call_sequence
    (z : Z) (more : list JsValue) (os : ActivateAnswers) (w : World) :
  let hwnd := Int64Value z in
  let fgThreadId :=
    if nonnull (foreground_before os) then window_thread os (foreground_before os) else 0 in
  let attempt :=
    negb (fgThreadId =? 0) && negb (fgThreadId =? GetCurrentThreadId os) in
  let minimized :=
    match IsMinimized (JsBigInt z :: more) (IsIconic os) with
    | Return (JsBoolean b) => b
    | _ => false
    end in
  IsWindow os hwnd = true ->
  ForceActivateWindow (JsBigInt z :: more) os w =
    (Return (JsBoolean (foreground_after os =? hwnd)), w,
     (if attempt
      then [CallAttachThreadInput (GetCurrentThreadId os) fgThreadId true (attach_answer os)]
      else [])
     ++ (if minimized then [CallShowWindow hwnd] else [])
     ++ [CallSetForegroundWindow hwnd; CallBringWindowToTop hwnd; CallSetFocus hwnd]
     ++ (if attempt && attach_answer os
         then [CallAttachThreadInput (GetCurrentThreadId os) fgThreadId false true]
         else [])).
Proof.
  intros hwnd fgThreadId attempt minimized Hw.
  subst minimized attempt fgThreadId hwnd.
  destruct w as [st table links].
  unfold ForceActivateWindow, IsMinimized. rewrite Hw. cbn [negb].
  unfold bind, ret, emit, when, AttachThreadInput.
  destruct (negb _ && negb _); cbn [input_links g_hookState win_event_hooks andb];
    destruct (attach_answer os); destruct (IsIconic os (Int64Value z));
    cbn; rewrite ?link_eqb_refl; reflexivity.
Qed.

(** ** The foreground process *)

(** X17: [getForegroundPid] returns [null] when there is no foreground window.
    When a live core is notified that an existing window came to the
    foreground, the [pid] of the event it delivers is the process id that
    [getForegroundPid] returns while that window has the foreground. *)
Theorem GetForegroundPid_agrees_with_foreground_event
    (info : list JsValue) (owner : Desktop) (uninit uninit' : DWORD) (e : WinEvent)
    (s : HookState) (f : JsFunctionId)
    (table : list HWINEVENTHOOK) (links : list (DWORD * DWORD)) (p : DWORD) :
  jsCallback s = Some f ->
  idObject e = OBJID_WINDOW ->
  idChild e = CHILDID_SELF ->
  event e = EVENT_SYSTEM_FOREGROUND ->
  hwnd e <> NULL ->
  owner (hwnd e) = Some p ->
  (exists arg,
     trace_of (WinEventProc owner uninit e (mkWorld (Some s) table links)) = [CallJs f arg] /\
     obj_get "pid" arg = Some (JsNumber p)) /\
  GetForegroundPid info (hwnd e) owner uninit' = Return (JsNumber p) /\
  GetForegroundPid info NULL owner uninit' = Return JsNull.
Proof.
  intros Hf HO HC Hfg Hnn Hown. split; [|split].
  - rewrite WinEventProc_trace. unfold GetWindowThreadProcessId.
    rewrite HO, HC, Hfg, Hf, Hown, !Z.eqb_refl. cbn [negb orb].
    eexists. split; reflexivity.
  - unfold GetForegroundPid, GetWindowThreadProcessId, nonnull.
    apply Z.eqb_neq in Hnn. rewrite Hnn, Hown. reflexivity.
  - reflexivity.
Qed.

(** ** Restart *)

(** X18: a start that passes the argument check behaves on every world exactly
    as a stop followed by that start: same result, same world, same calls in
    the same order. *)
Theorem start_is_stop_then_start
    (n : Z) (cb : JsFunctionId) (more info' : list JsValue) (os : HookAnswers) (w : World) :
  StartWinEventHook (JsNumber n :: JsFunction cb :: more) os w =
  bind (StopWinEventHook info')
       (fun _ => StartWinEventHook (JsNumber n :: JsFunction cb :: more) os) w.
Proof.
  destruct w as [[s|] table links]; unfold bind.
  - rewrite stop_run_live, start_run_live, start_run_stopped. reflexivity.
  - rewrite stop_run_stopped, start_run_stopped. reflexivity.
Qed.

(** ** The further properties at sample inputs *)

(** The scan skips the name that merely starts with the query and returns
    the first entry that matches up to case, not the later exact one. *)
Lemma FindProcessIdByName_first_match_witness :
  fst (FindProcessIdByName [JsString "cs2.exe"] 0x44 sample_processes)
  = Return (JsNumber 4242) /\
  FindProcessIdByName [JsString "cs2.exe"] 0x44 sample_processes
  = FindProcessIdByName [JsString "cs2.exe"] 0x44
      ([mkPROCESSENTRY32 0 "[System Process]"; mkPROCESSENTRY32 812 "cs2.exe.bak"]
       ++ [mkPROCESSENTRY32 4242 "CS2.EXE"]).
Proof.
  pose proof (FindProcessIdByName_first_match "cs2.exe" [] 0x44 sample_processes) as H.
  cbv zeta in H. destruct H as (_ & _ & H).
  apply (H [mkPROCESSENTRY32 0 "[System Process]"; mkPROCESSENTRY32 812 "cs2.exe.bak"]
           (mkPROCESSENTRY32 4242 "CS2.EXE") [mkPROCESSENTRY32 5150 "cs2.exe"]).
  - discriminate.
  - reflexivity.
  - reflexivity.
  - intros x [<-|[<-|[]]]; reflexivity.
Defined.

(** A client area of 1920 by 1080 in a window whose client origin is at
    (100, 50) on the screen. *)
Lemma GetClientBoundsOnScreen_translation_witness :
  GetClientBoundsOnScreen [JsBigInt 0x1A0]
    (fun _ => Some (mkRECT 0 0 1920 1080))
    (fun _ pt => Some (mkPOINT (pt_x pt + 100) (pt_y pt + 50)))
  = ReturnObject [("x"%string, JsNumber (0 + 100)); ("y"%string, JsNumber (0 + 50));
                  ("width"%string, JsNumber (1920 - 0));
                  ("height"%string, JsNumber (1080 - 0))].
Proof.
  apply (GetClientBoundsOnScreen_translation 0x1A0 [] (mkRECT 0 0 1920 1080) 100 50
           (fun _ => Some (mkRECT 0 0 1920 1080))
           (fun _ pt => Some (mkPOINT (pt_x pt + 100) (pt_y pt + 50)))).
  - reflexivity.
  - intros pt. reflexivity.
  - cbn. lia.
  - cbn. lia.
Defined.

(** The handle returned for process 4242 is read back as the handle of the
    large window. *)
Lemma FindWindowByPid_handle_round_trip_witness :
  exists w,
    In w [small_window; large_window] /\ handle w = 0x1B0 /\ Int64Value 0x1B0 = handle w /\
    (forall iconic,
       IsMinimized [JsBigInt 0x1B0] iconic = Return (JsBoolean (iconic (handle w)))) /\
    (forall os world,
       result_of (ForceActivateWindow [JsBigInt 0x1B0] os world)
       = Return (JsBoolean (IsWindow os (handle w)
                            && (foreground_after os =? handle w)))).
Proof.
  apply (FindWindowByPid_handle_round_trip [JsNumber 4242] [small_window; large_window]
           0x1B0).
  - repeat constructor; cbn; lia.
  - reflexivity.
Defined.

(** The object delivered for the move of window 0x1A0. *)
Lemma delivered_event_wire_shape_witness :
  exists ty,
    obj_get "type" [("type"%string, JsString "movestart"); ("hwnd"%string, JsBigInt 0x1A0)]
    = Some (JsString ty) /\
    obj_get "hwnd" [("type"%string, JsString "movestart"); ("hwnd"%string, JsBigInt 0x1A0)]
    = Some (JsBigInt (hwnd move_event)) /\
    raw_event ty = event move_event /\
    ((ty = "foreground"%string /\
      exists p, [("type"%string, JsString "movestart"); ("hwnd"%string, JsBigInt 0x1A0)]
                = [("type"%string, JsString ty); ("hwnd"%string, JsBigInt (hwnd move_event));
                   ("pid"%string, JsNumber p)]) \/
     (ty <> "foreground"%string /\
      [("type"%string, JsString "movestart"); ("hwnd"%string, JsBigInt 0x1A0)]
      = [("type"%string, JsString ty); ("hwnd"%string, JsBigInt (hwnd move_event))])).
Proof.
  apply (delivered_event_wire_shape sample_desktop 0 move_event
           (world_of (StartWinEventHook [JsNumber 4242; JsFunction 1%nat]
                        partial_answers initial_world))
           1%nat).
  left. reflexivity.
Defined.

(** The destruction of a window that is gone, with a core that tracks
    process 4242: the notification is delivered when the stale variable
    happens to hold 4242. *)
Lemma WinEventProc_window_gone_witness :
  trace_of (WinEventProc (fun _ => None) 4242
              (mkWinEvent EVENT_OBJECT_DESTROY 0x1A0 OBJID_WINDOW CHILDID_SELF)
              (mkWorld (Some (installed 4242 1%nat partial_answers)) [] []))
  = [CallJs 1%nat [("type"%string, JsString "destroy"); ("hwnd"%string, JsBigInt 0x1A0)]].
Proof.
  pose proof (WinEventProc_window_gone (fun _ => None) 4242
                (mkWinEvent EVENT_OBJECT_DESTROY 0x1A0 OBJID_WINDOW CHILDID_SELF)
                (installed 4242 1%nat partial_answers) 1%nat [] []
                eq_refl eq_refl eq_refl eq_refl) as H.
  cbv zeta in H. destruct H as (_ & _ & H).
  apply (H "destroy"%string); [discriminate | reflexivity | reflexivity].
Defined.

(** The large window is returned in either order of the enumeration. *)
Lemma FindWindowByPid_order_independent_witness :
  FindWindowByPid [JsNumber 4242] [small_window; flat_window; large_window]
  = Return (JsBigInt (handle large_window)) /\
  FindWindowByPid [JsNumber 4242] [large_window; small_window; flat_window]
  = Return (JsBigInt (handle large_window)).
Proof.
  apply (FindWindowByPid_order_independent 4242 []
           [small_window; flat_window; large_window]
           [large_window; small_window; flat_window] large_window).
  - lia.
  - apply Permutation_sym. apply (Permutation_cons_app [small_window; flat_window] []).
    reflexivity.
  - right. right. left. reflexivity.
  - reflexivity.
  - discriminate.
  - reflexivity.
  - intros x [<-|[<-|[<-|[]]]] _ Hne; try reflexivity. contradiction.
Defined.

(** The activation of the minimized window 0x1A0 while window 0x2B0 of
    another thread has the foreground. *)
Lemma ForceActivateWindow_call_sequence_witness :
  ForceActivateWindow [JsBigInt 0x1A0] granted_activation initial_world
  = (Return (JsBoolean true), initial_world,
     [CallAttachThreadInput 3 7 true true] ++ [CallShowWindow 0x1A0]
     ++ [CallSetForegroundWindow 0x1A0; CallBringWindowToTop 0x1A0; CallSetFocus 0x1A0]
     ++ [CallAttachThreadInput 3 7 false true]).
Proof.
  apply (ForceActivateWindow_call_sequence 0x1A0 [] granted_activation initial_world).
  reflexivity.
Defined.

(** Window 0x2B0 of process 999 comes to the foreground. *)
Lemma GetForegroundPid_agrees_with_foreground_event_witness :
  (exists arg,
     trace_of (WinEventProc sample_desktop 0 foreground_event
                 (mkWorld (Some (installed 4242 1%nat partial_answers)) [] []))
     = [CallJs 1%nat arg] /\
     obj_get "pid" arg = Some (JsNumber 999)) /\
  GetForegroundPid [] (hwnd foreground_event) sample_desktop 0 = Return (JsNumber 999) /\
  GetForegroundPid [] NULL sample_desktop 0 = Return JsNull.
Proof.
  apply (GetForegroundPid_agrees_with_foreground_event [] sample_desktop 0 0
           foreground_event (installed 4242 1%nat partial_answers) 1%nat [] [] 999);
    try reflexivity.
  discriminate.
Defined.
